(** * Wine catalogue search application ([app.py]): model and properties

    The development embeds the request handlers of [app.py] as Rocq
    functions.  The collaborators the handlers call but do not define (the
    Python built-ins [str.strip], [float], [re.escape], [re.compile], and the
    document database) are modelled in their own modules, each one stating
    which fragment of the library it covers.

    Strings are [String.string]: sequences of code points below 256. *)

From Stdlib Require Import String Ascii List Bool ZArith NArith Arith Lia.
From Stdlib Require Import SpecFloat.
From Stdlib Require Import Sorting.Sorted Sorting.Permutation Sorting.Mergesort.
Import ListNotations.

Local Open Scope string_scope.
Local Open Scope list_scope.
Local Open Scope nat_scope.

(* ================================================================== *)
(** * Python built-ins used by the handlers *)
(* ================================================================== *)

Module Py.

(** Truth value of a [str]: only the empty string is falsy. *)
Definition truthy (s : string) : bool :=
  match s with EmptyString => false | String _ _ => true end.

(** [x or d], where [x] is the result of a [.get] on a request
    dictionary ([None] when the key is absent). *)
Definition or_else (x : option string) (d : string) : string :=
  match x with
  | Some s => if truthy s then s else d
  | None => d
  end.

(** [str.isspace] on one code point below 256: TAB..CR, FS..US, space,
    NEL and NBSP. *)
Definition isspace (c : ascii) : bool :=
  let n := nat_of_ascii c in
  ((9 <=? n) && (n <=? 13)) || ((28 <=? n) && (n <=? 32))
  || (n =? 133) || (n =? 160).

Fixpoint lstrip (s : string) : string :=
  match s with
  | EmptyString => EmptyString
  | String c s' => if isspace c then lstrip s' else s
  end.

Fixpoint rstrip (s : string) : string :=
  match s with
  | EmptyString => EmptyString
  | String c s' =>
      match rstrip s' with
      | EmptyString => if isspace c then EmptyString else String c EmptyString
      | r => String c r
      end
  end.

(** [s.strip()] *)
Definition strip (s : string) : string := rstrip (lstrip s).

(** [s[:n]] *)
Fixpoint take (n : nat) (s : string) : string :=
  match n, s with
  | S n', String c s' => String c (take n' s')
  | _, _ => EmptyString
  end.

(** ** Floating point numbers

    A Python [float] is an IEEE 754 binary64 number, modelled by
    [spec_float] with precision 53 and maximal exponent 1024. *)

Definition float := spec_float.
Definition prec : Z := 53.
Definition emax : Z := 1024.

Definition fmul : float -> float -> float := SFmul prec emax.
Definition fdiv : float -> float -> float := SFdiv prec emax.
Definition fltb : float -> float -> bool := SFltb.
Definition fleb : float -> float -> bool := SFleb.

(** The literal [0] / [0.0]. *)
Definition fzero : float := S754_zero false.

(** The value of the decimal numeral [m * 10^e], rounded to nearest even
    once. *)
Definition of_decimal (neg : bool) (m : N) (e : Z) : float :=
  match m with
  | N0 => S754_zero neg
  | Npos p =>
      match e with
      | Zneg k =>
          let '(q, e', l) :=
            SFdiv_core_binary prec emax (Zpos p) 0 (Z.pow 10 (Zpos k)) 0 in
          binary_round_aux prec emax neg q e' l
      | _ => binary_round prec emax neg (p * Z.to_pos (Z.pow 10 e))%positive 0
      end
  end.

Definition is_digit (c : ascii) : bool :=
  let n := nat_of_ascii c in (48 <=? n) && (n <=? 57).

Definition digit_val (c : ascii) : N := N_of_ascii c - 48.

(** [digitpart ::= digit (["_"] digit)*]: reads the longest digit part at
    the head of [s]; [len] counts the digits read so far. *)
Fixpoint digitpart (s : string) (acc : N) (len : nat) : N * nat * string :=
  match s with
  | EmptyString => (acc, len, s)
  | String c s' =>
      if is_digit c then digitpart s' (10 * acc + digit_val c)%N (S len)
      else if (c =? "_")%char then
        match s' with
        | String d _ =>
            if is_digit d && (0 <? len) then digitpart s' acc len
            else (acc, len, s)
        | EmptyString => (acc, len, s)
        end
      else (acc, len, s)
  end.

(** Lower case of one code point below 256, as [str.lower] and the [re]
    engine have it: A..Z, and the Latin-1 capitals U+00C0..U+00D6 and
    U+00D8..U+00DE, are 32 below their small letters; every other code
    point is its own lower case. *)
Definition lower (c : ascii) : ascii :=
  let n := nat_of_ascii c in
  if ((65 <=? n) && (n <=? 90)) || ((192 <=? n) && (n <=? 214))
     || ((216 <=? n) && (n <=? 222))
  then ascii_of_nat (n + 32) else c.

Fixpoint lower_str (s : string) : string :=
  match s with
  | EmptyString => EmptyString
  | String c s' => String (lower c) (lower_str s')
  end.

(** Optional sign at the head of a numeral. *)
Definition sign (s : string) : bool * string :=
  match s with
  | String "-" s' => (true, s')
  | String "+" s' => (false, s')
  | _ => (false, s)
  end.

(** [exponent ::= ("e" | "E") [sign] digitpart], or nothing at the end of
    the numeral.  [None] when the text after the mantissa is neither. *)
Definition exponent (s : string) : option Z :=
  match s with
  | EmptyString => Some 0%Z
  | String c s' =>
      if (lower c =? "e")%char then
        let '(neg, s'') := sign s' in
        match digitpart s'' 0%N 0 with
        | (n, S _, EmptyString) =>
            Some (if neg then Z.opp (Z.of_N n) else Z.of_N n)
        | _ => None
        end
      else None
  end.

(** [floatnumber ::= ([digitpart] "." digitpart | digitpart ["."]) [exponent]] *)
Definition floatnumber (neg : bool) (s : string) : option float :=
  let '(ip, ilen, s1) := digitpart s 0%N 0 in
  let '(m, flen, s2) :=
    match s1 with
    | String "." s1' =>
        digitpart s1' ip 0
    | _ => (ip, 0, s1)
    end in
  match ilen + flen with
  | O => None
  | S _ =>
      match exponent s2 with
      | Some e => Some (of_decimal neg m (e - Z.of_nat flen))
      | None => None
      end
  end.

(** [Py_ISSPACE]: the ASCII white space, TAB..CR and the space. *)
Definition is_ascii_space (c : ascii) : bool :=
  let n := nat_of_ascii c in
  ((9 <=? n) && (n <=? 13)) || (n =? 32).

Fixpoint ascii_lstrip (s : string) : string :=
  match s with
  | EmptyString => EmptyString
  | String c s' => if is_ascii_space c then ascii_lstrip s' else s
  end.

Fixpoint ascii_rstrip (s : string) : string :=
  match s with
  | EmptyString => EmptyString
  | String c s' =>
      match ascii_rstrip s' with
      | EmptyString => if is_ascii_space c then EmptyString else String c EmptyString
      | r => String c r
      end
  end.

(** What [float] makes of its argument before it reads the numeral: a code
    point above 127 becomes a space when it is white space (NEL, NBSP) and
    spoils the numeral otherwise (there is no decimal digit between 128 and
    255); the ASCII characters are left as they are. *)
Fixpoint float_transform (s : string) : option string :=
  match s with
  | EmptyString => Some EmptyString
  | String c s' =>
      if nat_of_ascii c <=? 127
      then option_map (String c) (float_transform s')
      else if isspace c
           then option_map (String " ") (float_transform s')
           else None
  end.

(** [float(s)] for a [str] argument: [None] stands for [ValueError], the
    only exception the conversion of a string raises.  The conversion
    trims the ASCII white space only. *)
Definition float_of_str (s : string) : option float :=
  match float_transform s with
  | None => None
  | Some t =>
      let '(neg, body) := sign (ascii_rstrip (ascii_lstrip t)) in
      let l := lower_str body in
      if (l =? "inf")%string || (l =? "infinity")%string then Some (S754_infinity neg)
      else if (l =? "nan")%string then Some S754_nan
      else floatnumber neg body
  end.

End Py.

(* ================================================================== *)
(** * The [re] module: escaping, a fragment of the pattern syntax, search *)
(* ================================================================== *)

Module Re.

(** The keys of [re._special_chars_map]: the characters of
    [()[]{}?*+-|^$\.&~# \t\n\r\v\f]. *)
Definition special_chars : list ascii :=
  list_ascii_of_string "()[]{}?*+-|^$\.&~# "
  ++ map ascii_of_nat [9; 10; 13; 11; 12].

Definition is_special (c : ascii) : bool :=
  existsb (Ascii.eqb c) special_chars.

(** [re.escape(s)]: a backslash before every special character. *)
Fixpoint escape (s : string) : string :=
  match s with
  | EmptyString => EmptyString
  | String c s' =>
      if is_special c then String "\" (String c (escape s'))
      else String c (escape s')
  end.

(** Patterns.  [AnyChar] is [.]: every character but the line feed. *)
Inductive regex : Type :=
| Void
| Eps
| Lit (c : ascii)
| AnyChar
| Cat (r1 r2 : regex)
| Alt (r1 r2 : regex)
| Star (r : regex).

Inductive token : Type :=
| TChar (c : ascii)
| TDot
| TStar
| TPlus
| TQuest
| TBar
| TLParen
| TRParen.

Definition is_alnum (c : ascii) : bool :=
  let n := nat_of_ascii c in
  ((48 <=? n) && (n <=? 57)) || ((65 <=? n) && (n <=? 90))
  || ((97 <=? n) && (n <=? 122)).

(** The meaning of one unescaped pattern character; [None] for the
    constructs outside the modelled fragment (character sets, counted
    repetition, anchors). *)
Definition token_of_char (c : ascii) : option token :=
  match c with
  | "."%char => Some TDot
  | "*"%char => Some TStar
  | "+"%char => Some TPlus
  | "?"%char => Some TQuest
  | "|"%char => Some TBar
  | "("%char => Some TLParen
  | ")"%char => Some TRParen
  | "["%char | "{"%char | "^"%char | "$"%char => None
  | _ => Some (TChar c)
  end.

(** Lexing: a backslash followed by a character that is not an ASCII letter
    or digit denotes that character; a backslash followed by a letter or
    digit (a class or a group reference) or by nothing is outside the
    fragment. *)
Fixpoint tokenize (s : string) : option (list token) :=
  match s with
  | EmptyString => Some []
  | String "\" EmptyString => None
  | String "\" (String c s') =>
      if is_alnum c then None
      else option_map (cons (TChar c)) (tokenize s')
  | String c s' =>
      match token_of_char c with
      | Some t => option_map (cons t) (tokenize s')
      | None => None
      end
  end.

(** One optional repetition operator after an item. *)
Definition postfix (r : regex) (ts : list token) : regex * list token :=
  match ts with
  | TStar :: ts' => (Star r, ts')
  | TPlus :: ts' => (Cat r (Star r), ts')
  | TQuest :: ts' => (Alt Eps r, ts')
  | _ => (r, ts)
  end.

(** Recursive descent over the tokens; [n] bounds the depth of the calls. *)
Fixpoint parse_alt (n : nat) (ts : list token) : option (regex * list token) :=
  match n with
  | O => None
  | S n' =>
      match parse_seq n' ts with
      | Some (r1, TBar :: ts') =>
          match parse_alt n' ts' with
          | Some (r2, ts'') => Some (Alt r1 r2, ts'')
          | None => None
          end
      | other => other
      end
  end
with parse_seq (n : nat) (ts : list token) : option (regex * list token) :=
  match n with
  | O => None
  | S n' =>
      match ts with
      | [] | TBar :: _ | TRParen :: _ => Some (Eps, ts)
      | _ =>
          match parse_item n' ts with
          | Some (r1, ts') =>
              match parse_seq n' ts' with
              | Some (r2, ts'') => Some (Cat r1 r2, ts'')
              | None => None
              end
          | None => None
          end
      end
  end
with parse_item (n : nat) (ts : list token) : option (regex * list token) :=
  match n with
  | O => None
  | S n' =>
      match ts with
      | TChar c :: ts' => Some (postfix (Lit c) ts')
      | TDot :: ts' => Some (postfix AnyChar ts')
      | TLParen :: ts' =>
          match parse_alt n' ts' with
          | Some (r, TRParen :: ts'') => Some (postfix r ts'')
          | _ => None
          end
      | _ => None
      end
  end.

(** A compiled pattern: the expression and the [re.IGNORECASE] flag. *)
Record pattern : Type := mkPattern { pat_re : regex; pat_ignorecase : bool }.

(** [re.compile(p, flags)]; [None]: the pattern is malformed or outside the
    fragment. *)
Definition compile (p : string) (ignorecase : bool) : option pattern :=
  match tokenize p with
  | Some ts =>
      match parse_alt (2 * List.length ts + 2) ts with
      | Some (r, []) => Some (mkPattern r ignorecase)
      | _ => None
      end
  | None => None
  end.

(** Character comparison under the flag: two code points below 256 match
    when they have the same lower case. *)
Definition chr_eq (ic : bool) (c d : ascii) : bool :=
  if ic then (Py.lower c =? Py.lower d)%char else (c =? d)%char.

Definition newline : ascii := ascii_of_nat 10.

Fixpoint nullable (r : regex) : bool :=
  match r with
  | Void | Lit _ | AnyChar => false
  | Eps | Star _ => true
  | Cat r1 r2 => nullable r1 && nullable r2
  | Alt r1 r2 => nullable r1 || nullable r2
  end.

(** Derivative of [r] by the subject character [d]. *)
Fixpoint deriv (ic : bool) (d : ascii) (r : regex) : regex :=
  match r with
  | Void | Eps => Void
  | Lit c => if chr_eq ic c d then Eps else Void
  | AnyChar => if (d =? newline)%char then Void else Eps
  | Cat r1 r2 =>
      if nullable r1
      then Alt (Cat (deriv ic d r1) r2) (deriv ic d r2)
      else Cat (deriv ic d r1) r2
  | Alt r1 r2 => Alt (deriv ic d r1) (deriv ic d r2)
  | Star r1 => Cat (deriv ic d r1) (Star r1)
  end.

(** Does some prefix of [s] match [r]? *)
Fixpoint match_prefix (ic : bool) (r : regex) (s : string) : bool :=
  nullable r ||
  match s with
  | EmptyString => false
  | String d s' => match_prefix ic (deriv ic d r) s'
  end.

(** Unanchored search, the way the database applies a pattern to a string
    field: does the pattern match somewhere in [s]? *)
Fixpoint search_from (ic : bool) (r : regex) (s : string) : bool :=
  match_prefix ic r s ||
  match s with
  | EmptyString => false
  | String _ s' => search_from ic r s'
  end.

Definition search (p : pattern) (s : string) : bool :=
  search_from (pat_ignorecase p) (pat_re p) s.

(** The expression that matches exactly the characters of [q], in order. *)
Fixpoint lits (q : string) : regex :=
  match q with
  | EmptyString => Eps
  | String c q' => Cat (Lit c) (lits q')
  end.

End Re.

(* ================================================================== *)
(** * The document store *)
(* ================================================================== *)

Module Mongo.

(** A stored scalar of a text attribute: [null] (also standing for a
    missing attribute) or a string. *)
Inductive value : Type :=
| VNull
| VStr (s : string).

Definition value_eqb (a b : value) : bool :=
  match a, b with
  | VNull, VNull => true
  | VStr s, VStr t => (s =? t)%string
  | _, _ => false
  end.

(** Python truth value of a value read back from the store. *)
Definition truthy (v : value) : bool :=
  match v with
  | VNull => false
  | VStr s => Py.truthy s
  end.

(** [str(v)], the sort key of the facet lists. *)
Definition str (v : value) : string :=
  match v with
  | VNull => "None"
  | VStr s => s
  end.

(** [bson.ObjectId]: the bytes of the identifier, written as lower-case
    hexadecimal digits, two per byte (twelve bytes, 24 digits, for every
    stored identifier). *)
Definition oid : Type := string.

Definition is_hex (c : ascii) : bool :=
  let n := nat_of_ascii c in
  ((48 <=? n) && (n <=? 57)) || ((65 <=? n) && (n <=? 70))
  || ((97 <=? n) && (n <=? 102)).

Fixpoint all_hex (s : string) : bool :=
  match s with
  | EmptyString => true
  | String c s' => is_hex c && all_hex s'
  end.

(** [bytes.fromhex(s)], the bytes written back as lower-case hexadecimal
    digits: two digits per byte, the ASCII white space before a byte and at
    the end being skipped; [None] stands for [ValueError]. *)
Fixpoint fromhex (s : string) : option string :=
  match s with
  | EmptyString => Some EmptyString
  | String c s' =>
      if Py.is_ascii_space c then fromhex s'
      else
        match s' with
        | EmptyString => None
        | String d s'' =>
            if is_hex c && is_hex d
            then option_map (fun r => String (Py.lower c) (String (Py.lower d) r))
                            (fromhex s'')
            else None
        end
  end.

(** [ObjectId(s)] for a [str]: a string of 24 characters that
    [bytes.fromhex] accepts; [None] stands for [InvalidId].  For 24
    hexadecimal digits the value is the twelve bytes they write; a string
    of 24 characters with white space in it gives fewer bytes. *)
Definition ObjectId (s : string) : option oid :=
  if String.length s =? 24 then fromhex s else None.

Record comment : Type := mkComment {
  comment_id : oid;
  comment_text : string;
  comment_author : string;
  comment_createdAt : Z
}.

(** A document of the [wines] collection. *)
Record wine : Type := mkWine {
  wine_id : oid;
  title : value;
  description : value;
  winery : value;
  variety : value;
  country : value;
  province : value;
  comments : list comment
}.

Definition collection : Type := list wine.

(** The text attribute of a document under a field name. *)
Definition get_field (name : string) (w : wine) : value :=
  if (name =? "title")%string then title w
  else if (name =? "description")%string then description w
  else if (name =? "winery")%string then winery w
  else if (name =? "variety")%string then variety w
  else if (name =? "country")%string then country w
  else if (name =? "province")%string then province w
  else VNull.

(** The filter documents the handlers build. *)
#[warnings="-register-all"]
Inductive filter : Type :=
| FText (search : string)
| FRegex (field : string) (r : Re.pattern)
| FEq (field : string) (v : string)
| FGeoWithin (center : Py.float * Py.float) (radians : Py.float)
| FOr (fs : list filter)
| FAnd (fs : list filter).

(** The filter [{}] matches every document. *)
Definition match_all : filter := FAnd [].

Section Matching.

(** The two indexes of the engine are left abstract: full-text search and
    the spherical containment test. *)
Variable text_index : string -> wine -> bool.
Variable geo_index : Py.float * Py.float -> Py.float -> wine -> bool.

Fixpoint matches (f : filter) (w : wine) : bool :=
  match f with
  | FText q => text_index q w
  | FRegex field r =>
      match get_field field w with
      | VStr s => Re.search r s
      | VNull => false
      end
  | FEq field v => value_eqb (get_field field w) (VStr v)
  | FGeoWithin c r => geo_index c r w
  | FOr fs => existsb (fun g => matches g w) fs
  | FAnd fs => forallb (fun g => matches g w) fs
  end.

End Matching.

Definition value_eq_dec (a b : value) : {a = b} + {a <> b}.
Proof. decide equality; apply string_dec. Defined.

(** [coll.distinct(field, query)]: the values of the attribute over the
    documents selected by [query], each one once. *)
Definition distinct (field : string) (sel : wine -> bool) (coll : collection)
  : list value :=
  nodup value_eq_dec (map (get_field field) (List.filter sel coll)).

End Mongo.

(** Order of the facet lists: [sorted(..., key=str)] compares the keys as
    strings, code point by code point. *)
Module KeyStrOrder <: Orders.TotalLeBool.
Definition t : Type := Mongo.value.
Definition leb (a b : t) : bool := String.leb (Mongo.str a) (Mongo.str b).
Lemma leb_total : forall a b : t, leb a b = true \/ leb b a = true.
Proof. intros a b. apply String.leb_total. Qed.
End KeyStrOrder.

Module KeyStrSort := Mergesort.Sort KeyStrOrder.

(* ================================================================== *)
(** * The application: [app.py] *)
(* ================================================================== *)

Module App.
Import Mongo.

(** [request.args] / [request.form]: the submitted pairs; [.get] returns
    the first value of a key, or [None]. *)
Definition params : Type := list (string * string).

Fixpoint get (k : string) (a : params) : option string :=
  match a with
  | [] => None
  | (k', v) :: a' => if (k =? k')%string then Some v else get k a'
  end.

(** What a handler returns. *)
Inductive response : Type :=
| Plain (body : string) (status : nat)
| Redirect (location : string)
| Blob (data : string) (mimetype : string) (headers : list (string * string))
| StaticFile (name : string) (data : string).

Definition status (r : response) : nat :=
  match r with
  | Plain _ st => st
  | Redirect _ => 302
  | Blob _ _ _ => 200
  | StaticFile _ _ => 200
  end.

(** ** 3) UTILS *)

Definition regex_safe (s : string) : string := Re.escape s.

Definition f1000 : Py.float := Py.of_decimal false 1000 0.

Definition km_to_meters (km : string) : Py.float :=
  match Py.float_of_str km with
  | Some f => Py.fmul f f1000
  | None => Py.fzero
  end.

(** [sorted([c for c in values if c], key=str)[:max_items]] *)
Definition sorted_facet (values : list value) (max_items : nat) : list value :=
  firstn max_items (KeyStrSort.sort (List.filter truthy values)).

Definition get_filter_lists (coll : collection) (max_items : nat)
  : list value * list value :=
  let countries := sorted_facet (distinct "country" (fun _ => true) coll) max_items in
  let provinces := sorted_facet (distinct "province" (fun _ => true) coll) max_items in
  (countries, provinces).

(** The default of [max_items], used by every caller. *)
Definition default_max_items : nat := 250.

(** ** Country statistics: the [varietyCounts] branch *)

(** A Python dict display [{k1: v1, k2: v2, ...}]: the items are stored
    from left to right, a later item replacing the value of an equal key. *)
Fixpoint dict_set {V : Type} (k : string) (v : V) (d : list (string * V))
  : list (string * V) :=
  match d with
  | [] => [(k, v)]
  | (k', v') :: d' =>
      if (k =? k')%string then (k, v) :: d' else (k', v') :: dict_set k v d'
  end.

Definition dict_display {V : Type} (items : list (string * V))
  : list (string * V) :=
  fold_left (fun d kv => dict_set (fst kv) (snd kv) d) items [].

(** One query operator applied to an attribute; [$ne] is the only one the
    pipeline uses. *)
Definition eval_operator (op : string) (arg : value) (v : value) : bool :=
  if (op =? "$ne")%string then negb (value_eqb v arg) else false.

(** A document of operators holds when each of its entries holds. *)
Definition eval_operators (ops : list (string * value)) (v : value) : bool :=
  forallb (fun kv => eval_operator (fst kv) (snd kv) v) ops.

(** [{"$match": {"variety": {"$ne": None, "$ne": ""}}}] *)
Definition variety_condition : list (string * value) :=
  dict_display [("$ne", VNull); ("$ne", VStr "")].

(** [{"$group": {"_id": "$variety", "count": {"$sum": 1}}}]: one group per
    value, in the order of first occurrence. *)
Fixpoint group_add (v : value) (gs : list (value * nat)) : list (value * nat) :=
  match gs with
  | [] => [(v, 1)]
  | (g, n) :: gs' =>
      if value_eqb g v then (g, S n) :: gs' else (g, n) :: group_add v gs'
  end.

Definition group_count (vs : list value) : list (value * nat) :=
  fold_left (fun gs v => group_add v gs) vs [].

(** [{"$sort": {"count": -1}}]: descending by count.  The engine leaves the
    order of groups of equal count open; here the group met last comes
    first among them. *)
Fixpoint insert_desc (g : value * nat) (gs : list (value * nat))
  : list (value * nat) :=
  match gs with
  | [] => [g]
  | h :: gs' => if snd h <? snd g then g :: gs else h :: insert_desc g gs'
  end.

Definition sort_desc (gs : list (value * nat)) : list (value * nat) :=
  fold_right insert_desc [] gs.

(** The [varietyCounts] facet over the documents of one country. *)
Definition varietyCounts (coll : collection) (country_name : string)
  : list (value * nat) :=
  let matched := List.filter (fun w => value_eqb (country w) (VStr country_name)) coll in
  let kept := List.filter (fun w => eval_operators variety_condition (variety w)) matched in
  firstn 1 (sort_desc (group_count (map variety kept))).

(** [topVariety] of the result of [get_country_stats]; the outer [None] is
    the early return on an empty country name.  The projection maps an
    empty facet and a [null] group key alike to [null]. *)
Definition get_country_stats_topVariety (coll : collection) (country_name : string)
  : option value :=
  if negb (Py.truthy country_name) then None
  else
    match varietyCounts coll country_name with
    | (v, _) :: _ => Some v
    | [] => Some VNull
    end.

(** ** 4) ROUTES: [GET /search] *)

Inductive direction : Type := ASCENDING | DESCENDING.

(** The arguments of the [count_documents] and [find] calls. *)
Record find_plan : Type := mkPlan {
  plan_query : filter;
  plan_projection : list string;
  plan_sort : list (string * direction);
  plan_limit : nat
}.

Definition earth_radius : Py.float := Py.of_decimal false 6378100 0.

(** [{"location": {"$geoWithin": {"$centerSphere": [c, max_m / 6378100.0]}}}] *)
Definition centerSphere (c : Py.float * Py.float) (max_m : Py.float) : filter :=
  FGeoWithin c (Py.fdiv max_m earth_radius).

(** (Text search logic); [None]: [re.compile] raised. *)
Definition text_logic (filters : list filter) (q field : string) (use_text : bool)
  : option (list filter) :=
  if Py.truthy q then
    if use_text then Some (filters ++ [FText q])
    else
      match Re.compile (regex_safe q) true with
      | None => None
      | Some r =>
          if (field =? "all")%string then
            Some (filters ++ [FOr [FRegex "title" r; FRegex "description" r;
                                   FRegex "winery" r; FRegex "variety" r]])
          else if existsb (String.eqb field) ["title"; "description"; "variety"; "winery"]
          then Some (filters ++ [FRegex field r])
          else Some filters
      end
  else Some filters.

(** (Facet filters) *)
Definition facet_logic (filters : list filter) (country_filter province_filter : string)
  : list filter :=
  let filters :=
    if Py.truthy country_filter then filters ++ [FEq "country" country_filter]
    else filters in
  if Py.truthy province_filter then filters ++ [FEq "province" province_filter]
  else filters.

(** [s or None] *)
Definition or_None (s : string) : option string :=
  if Py.truthy s then Some s else None.

Section Search.

(** [centroid_for(db, country, province)]: the averaged position computed
    by the aggregation, [None] when there is none or the aggregation
    failed. *)
Variable centroid_for : option string -> option string -> option (Py.float * Py.float).

(** (Geospatial logic): the filters and [center_coords]. *)
Definition geo_logic (filters : list filter)
    (geo_mode : string) (max_m : Py.float)
    (country_filter province_filter lat_str lon_str : string)
  : list filter * option (Py.float * Py.float) :=
  if (geo_mode =? "by_area")%string && Py.fltb Py.fzero max_m
     && (Py.truthy country_filter || Py.truthy province_filter)
  then
    match centroid_for (or_None country_filter) (or_None province_filter) with
    | Some center_coords =>
        (filters ++ [centerSphere center_coords max_m], Some center_coords)
    | None => (filters, None)
    end
  else if (geo_mode =? "by_coords")%string && Py.fltb Py.fzero max_m
          && Py.truthy lat_str && Py.truthy lon_str
  then
    match Py.float_of_str lat_str with
    | None => (filters, None)
    | Some lat =>
        match Py.float_of_str lon_str with
        | None => (filters, None)
        | Some lon =>
            (filters ++ [centerSphere (lon, lat) max_m], Some (lon, lat))
        end
    end
  else (filters, None).

(** Determine sort order (Price/Points only). *)
Definition sort_order (sort_by : string) : list (string * direction) :=
  if (sort_by =? "price_asc")%string then [("price", ASCENDING)]
  else if (sort_by =? "price_desc")%string then [("price", DESCENDING)]
  else if (sort_by =? "points_asc")%string then [("points", ASCENDING)]
  else [("points", DESCENDING)].

Definition projection : list string :=
  ["title"; "country"; "province"; "variety"; "winery"; "points"; "price";
   "country_image"].

(** The inputs of [search], read from the query string. *)
Definition arg_q (a : params) : string := Py.strip (Py.or_else (get "q" a) "").
Definition arg_field (a : params) : string := Py.strip (Py.or_else (get "field" a) "all").
Definition arg_use_text (a : params) : bool := (Py.or_else (get "text" a) "" =? "1")%string.
Definition arg_country (a : params) : string := Py.strip (Py.or_else (get "country" a) "").
Definition arg_province (a : params) : string := Py.strip (Py.or_else (get "province" a) "").
Definition arg_geo_mode (a : params) : string := Py.strip (Py.or_else (get "geo_mode" a) "by_area").
Definition arg_lat (a : params) : string := Py.strip (Py.or_else (get "lat" a) "").
Definition arg_lon (a : params) : string := Py.strip (Py.or_else (get "lon" a) "").
Definition arg_radius (a : params) : string := Py.strip (Py.or_else (get "radius" a) "50").
Definition arg_max_m (a : params) : Py.float := km_to_meters (arg_radius a).
Definition arg_sort_by (a : params) : string := Py.strip (Py.or_else (get "sort_by" a) "points_desc").

(** The filters of a request, with [center_coords]; [None]: the handler
    raised before it reached the database. *)
Definition search_filters (a : params)
  : option (list filter * option (Py.float * Py.float)) :=
  match text_logic [] (arg_q a) (arg_field a) (arg_use_text a) with
  | None => None
  | Some filters =>
      let filters := facet_logic filters (arg_country a) (arg_province a) in
      Some (geo_logic filters (arg_geo_mode a) (arg_max_m a)
              (arg_country a) (arg_province a) (arg_lat a) (arg_lon a))
  end.

(** [search] up to the calls on the collection. *)
Definition search (a : params) : option find_plan :=
  match search_filters a with
  | None => None
  | Some (filters, _) =>
      let query := match filters with [] => match_all | _ => FAnd filters end in
      Some (mkPlan query projection (sort_order (arg_sort_by a)) 50)
  end.

End Search.

(** ** [GET /image/<id>] *)

Record grid_file : Type := mkFile {
  file_filename : option string;
  file_content_type : option string;
  file_data : string
}.

(** ['.' in filename] *)
Fixpoint has_dot (s : string) : bool :=
  match s with
  | EmptyString => false
  | String c s' => (c =? ".")%char || has_dot s'
  end.

(** [filename.rsplit('.', 1)[1]] for a name that has a dot: what follows
    the last one. *)
Fixpoint after_last_dot (s : string) : string :=
  match s with
  | EmptyString => EmptyString
  | String c s' =>
      if has_dot s' then after_last_dot s'
      else if (c =? ".")%char then s' else EmptyString
  end.

Definition mimetype_of_ext (ext : string) : option string :=
  if (ext =? "png")%string then Some "image/png"
  else if (ext =? "jpg")%string || (ext =? "jpeg")%string then Some "image/jpeg"
  else if (ext =? "gif")%string then Some "image/gif"
  else None.

Definition opt_truthy (o : option string) : bool :=
  match o with Some s => Py.truthy s | None => false end.

(** The body of the [try]; [None]: an exception reached the handler's
    [except] clause.  [fs_get] is [fs.get]: [None] when it raises. *)
Definition get_image_try (fs_get : oid -> option grid_file) (id : string)
  : option response :=
  match ObjectId id with
  | None => None
  | Some file_id =>
      match fs_get file_id with
      | None => None
      | Some f =>
          let filename := file_filename f in
          let mimetype := file_content_type f in
          let guessed :=
            if opt_truthy mimetype then Some mimetype
            else
              match filename with
              | None => None
              | Some name =>
                  if has_dot name
                  then
                    match mimetype_of_ext (Py.lower_str (after_last_dot name)) with
                    | Some m => Some (Some m)
                    | None => Some mimetype
                    end
                  else Some mimetype
              end in
          match guessed with
          | None => None
          | Some mimetype =>
              let mimetype :=
                if opt_truthy mimetype
                then match mimetype with Some m => m | None => EmptyString end
                else "application/octet-stream" in
              Some (Blob (file_data f) mimetype
                      [("Cache-Control", "public, max-age=604800")])
          end
      end
  end.

(** [static_default]: the content of [static/default.png], [None] when the
    file is missing. *)
Definition get_image (fs_get : oid -> option grid_file)
    (static_default : option string) (id : string) : response :=
  match get_image_try fs_get id with
  | Some r => r
  | None =>
      match static_default with
      | Some data => StaticFile "default.png" data
      | None => Plain "Image not found" 404
      end
  end.

(** ** [POST /wine/<id>/comment] *)

(** The collection behind the handler, and whether the driver is in a state
    where a write raises (with the message of the exception). *)
Record database : Type := mkDb {
  db_wines : collection;
  db_fault : option string
}.

(** [{"$push": {"comments": comment}}] on one document. *)
Definition push_comment (c : comment) (w : wine) : wine :=
  mkWine (wine_id w) (title w) (description w) (winery w) (variety w)
         (country w) (province w) (comments w ++ [c]).

(** [coll.update_one({"_id": _id}, {"$push": {"comments": c}})]: the first
    document of that identifier is updated; the collection afterwards and
    [matched_count]. *)
Fixpoint update_one (coll : collection) (_id : oid) (c : comment)
  : collection * nat :=
  match coll with
  | [] => ([], 0)
  | w :: ws =>
      if (wine_id w =? _id)%string then (push_comment c w :: ws, 1)
      else let '(ws', n) := update_one ws _id c in (w :: ws', n)
  end.

(** The characters a URL path segment keeps as they are: the ASCII letters
    and digits, [-._~] and [!$&'()*+,/:;=@]. *)
Definition url_safe (c : ascii) : bool :=
  Re.is_alnum c
  || existsb (Ascii.eqb c) (list_ascii_of_string "-._~!$&'()*+,/:;=@").

Definition hex_upper (n : nat) : ascii :=
  if n <? 10 then ascii_of_nat (48 + n) else ascii_of_nat (55 + n).

(** [%XX] for one byte. *)
Definition percent_byte (n : nat) (rest : string) : string :=
  String "%" (String (hex_upper (n / 16)) (String (hex_upper (n mod 16)) rest)).

(** Percent-encoding of a path variable: the UTF-8 bytes of every code
    point that is not kept. *)
Fixpoint url_quote (s : string) : string :=
  match s with
  | EmptyString => EmptyString
  | String c s' =>
      let n := nat_of_ascii c in
      if url_safe c then String c (url_quote s')
      else if n <? 128 then percent_byte n (url_quote s')
      else percent_byte (192 + n / 64) (percent_byte (128 + n mod 64) (url_quote s'))
  end.

(** [url_for("wine_details", id=id)] *)
Definition url_for_wine_details (id : string) : string :=
  ("/wine/" ++ url_quote id)%string.

(** [new_id] is the value of [ObjectId()] and [now] the clock reading. *)
Definition add_comment (db : database) (new_id : oid) (now : Z)
    (id : string) (form : params) : response * database :=
  let text := Py.take 2000 (Py.strip (Py.or_else (get "text" form) "")) in
  let author := Py.take 120 (Py.strip (Py.or_else (get "author" form) "anonymous")) in
  if negb (Py.truthy text) then (Plain "Comment text is required" 400, db)
  else
    match ObjectId id with
    | None => (Plain "Invalid ID" 400, db)
    | Some _id =>
        let comment :=
          mkComment new_id text (if Py.truthy author then author else "anonymous") now in
        match db_fault db with
        | Some e => (Plain ("Error adding comment: " ++ e) 500, db)
        | None =>
            let '(coll', matched_count) := update_one (db_wines db) _id comment in
            if matched_count =? 0
            then (Plain "Wine not found" 404, mkDb coll' None)
            else (Redirect (url_for_wine_details id), mkDb coll' None)
        end
    end.

(** ** [GET /provinces] *)

Definition provinces_for_country (coll : collection) (a : params) : list value :=
  let country := Py.strip (Py.or_else (get "country" a) "") in
  let query :=
    if Py.truthy country
    then fun w => value_eqb (get_field "country" w) (VStr country)
    else fun _ => true in
  sorted_facet (distinct "province" query coll) 300.

End App.

(* ================================================================== *)
(** * Vocabulary of the properties *)
(* ================================================================== *)

Module Spec.
Import Mongo App.

(** [q] occurs in [s] as a literal substring, up to letter case: some
    substring of [s] has the lower case of [q]. *)
Definition contains_ci (q s : string) : Prop :=
  exists pre mid post : string,
    s = (pre ++ mid ++ post)%string /\ Py.lower_str mid = Py.lower_str q.

(** The attribute is a string that contains [q]. *)
Definition field_contains (q : string) (v : value) : Prop :=
  exists s : string, v = VStr s /\ contains_ci q s.

(** The field selectors the search form knows. *)
Definition recognized_fields : list string :=
  ["all"; "title"; "description"; "variety"; "winery"].

(** A filter that is, or contains, a predicate on the text of a record. *)
#[warnings="-register-all"]
Fixpoint is_text_predicate (f : filter) : bool :=
  match f with
  | FText _ | FRegex _ _ => true
  | FOr fs | FAnd fs => existsb is_text_predicate fs
  | FEq _ _ | FGeoWithin _ _ => false
  end.

Definition is_geo_predicate (f : filter) : bool :=
  match f with
  | FGeoWithin _ _ => true
  | _ => false
  end.

(** Number of documents of the collection whose attribute is [v]. *)
Definition occurrences (attr : wine -> value) (v : value) (coll : collection) : nat :=
  List.length (List.filter (fun w => value_eqb (attr w) v) coll).

(** The type of [centroid_for], with the database fixed. *)
Definition centroid_oracle : Type :=
  option string -> option string -> option (Py.float * Py.float).

(** Order of the sort keys. *)
Definition key_le (a b : value) : Prop := KeyStrOrder.leb a b = true.

(** [v] is a non-empty value of the attribute among the selected
    documents. *)
Definition facet_value (field : string) (sel : wine -> bool) (coll : collection)
    (v : value) : Prop :=
  (exists s : string, v = VStr s /\ s <> "") /\
  exists w : wine, In w coll /\ sel w = true /\ get_field field w = v.

(** [l] is the facet list of the attribute, capped at [cap] items: sorted,
    without duplicates, of at most [cap] non-empty values of the attribute,
    and the first [cap] items of the sorted list of all of them. *)
Definition facet_list (field : string) (sel : wine -> bool) (coll : collection)
    (cap : nat) (l : list value) : Prop :=
  StronglySorted key_le l /\
  NoDup l /\
  List.length l <= cap /\
  (forall v : value, In v l -> facet_value field sel coll v) /\
  exists full : list value,
    l = firstn cap full /\
    StronglySorted key_le full /\
    NoDup full /\
    (forall v : value, In v full <-> facet_value field sel coll v).

(** The filters of a request before the geospatial block. *)
Definition filters_before_geo (a : params) : option (list filter) :=
  option_map (fun fs => facet_logic fs (arg_country a) (arg_province a))
             (text_logic [] (arg_q a) (arg_field a) (arg_use_text a)).

(** The same request with one more parameter, which takes precedence over
    a value already submitted under that key. *)
Definition with_param (k v : string) (a : params) : params := (k, v) :: a.

End Spec.

(* ================================================================== *)
(** * The remaining routes and the per-request handles *)
(* ================================================================== *)

Module Routes.
Import Mongo App.

(** [coll.find_one({"_id": _id})]: the first document of that identifier. *)
Definition find_one (coll : collection) (_id : oid) : option wine :=
  List.find (fun w => (wine_id w =? _id)%string) coll.

(** [GET /wine/<id>]: an error response, or the document handed to the
    template [detail.html] (its [comments] attribute being the empty list
    when the stored document has none). *)
Definition wine_details (coll : collection) (id : string) : response + wine :=
  match ObjectId id with
  | None => inl (Plain "Invalid ID" 400)
  | Some _id =>
      match find_one coll _id with
      | None => inl (Plain "Wine not found" 404)
      | Some wine => inr wine
      end
  end.

End Routes.

(** ** 2) DB HELPERS

    The application context [g] of one request, together with the clients
    the helpers have created: a client is numbered by its order of
    creation, and stays in [clients_open] until it is closed. *)
Module Context.

Record app_ctx : Type := mkCtx {
  g_db : option nat;
  g_fs : option nat;
  clients_made : nat;
  clients_open : list nat
}.

(** The context at the start of a request. *)
Definition fresh : app_ctx := mkCtx None None 0 [].

(** [get_db()]: the database handle, named by its client. *)
Definition get_db (c : app_ctx) : nat * app_ctx :=
  match g_db c with
  | Some db => (db, c)
  | None =>
      let client := clients_made c in
      (client, mkCtx (Some client) (g_fs c) (S (clients_made c))
                 (client :: clients_open c))
  end.

(** [get_fs()]: the bucket, named by the client of its database. *)
Definition get_fs (c : app_ctx) : nat * app_ctx :=
  match g_fs c with
  | Some fs => (fs, c)
  | None =>
      let '(db, c') := get_db c in
      (db, mkCtx (g_db c') (Some db) (clients_made c') (clients_open c'))
  end.

(** [teardown_db(exception)] *)
Definition teardown_db (c : app_ctx) : app_ctx :=
  match g_db c with
  | Some db =>
      mkCtx None (g_fs c) (clients_made c) (remove Nat.eq_dec db (clients_open c))
  | None => c
  end.

(** What holds of the context all along a request: either nothing was
    created yet, or the one client, number 0, is cached and open. *)
Definition ctx_invariant (c : app_ctx) : Prop :=
  (g_db c = None /\ g_fs c = None /\ clients_made c = 0 /\ clients_open c = []) \/
  (g_db c = Some 0 /\ (g_fs c = None \/ g_fs c = Some 0) /\
   clients_made c = 1 /\ clients_open c = [0]).

(** The calls a handler makes on the helpers. *)
Inductive helper_call : Type := CallGetDb | CallGetFs.

Definition run_call (c : app_ctx) (k : helper_call) : nat * app_ctx :=
  match k with
  | CallGetDb => get_db c
  | CallGetFs => get_fs c
  end.

(** A sequence of calls: the handles returned, and the context after. *)
Fixpoint run_calls (c : app_ctx) (ks : list helper_call) : list nat * app_ctx :=
  match ks with
  | [] => ([], c)
  | k :: ks' =>
      let '(h, c') := run_call c k in
      let '(hs, c'') := run_calls c' ks' in
      (h :: hs, c'')
  end.

End Context.

(** Further vocabulary of the properties. *)
Module SpecMore.
Import Mongo App.

(** The records the top-variety branch counts: those of the country whose
    variety is not the empty string. *)
Definition counted_records (coll : collection) (country_name : string) : collection :=
  List.filter (fun w => value_eqb (country w) (VStr country_name)
                        && negb (value_eqb (variety w) (VStr ""))) coll.

(** The count recorded for a key in a list of groups, 0 when there is no
    such group. *)
Fixpoint group_lookup (k : value) (gs : list (value * nat)) : nat :=
  match gs with
  | [] => 0
  | (g, n) :: gs' => if value_eqb g k then n else group_lookup k gs'
  end.

(** Number of occurrences of a value in a list. *)
Definition count_value (k : value) (vs : list value) : nat :=
  List.length (List.filter (fun v => value_eqb v k) vs).

(** [w'] is [w] with, at most, comments added at the end. *)
Definition extends_comments (w w' : wine) : Prop :=
  wine_id w' = wine_id w /\ title w' = title w /\
  description w' = description w /\ winery w' = winery w /\
  variety w' = variety w /\ country w' = country w /\
  province w' = province w /\
  exists extra : list comment, comments w' = comments w ++ extra.

(** The [Cache-Control] header of a served blob. *)
Definition one_week_cache : list (string * string) :=
  [("Cache-Control", "public, max-age=604800")].

(** The search parameters whose value is trimmed. *)
Definition trimmed_keys : list string :=
  ["q"; "field"; "country"; "province"; "geo_mode"; "lat"; "lon"; "radius";
   "sort_by"].

(** The media type the asset handler derives from a file name. *)
Definition media_type_of_extension (ext : string) : string :=
  let e := Py.lower_str ext in
  if (e =? "png")%string then "image/png"
  else if (e =? "jpg")%string || (e =? "jpeg")%string then "image/jpeg"
  else if (e =? "gif")%string then "image/gif"
  else "application/octet-stream".

End SpecMore.

(* ================================================================== *)
(** * Properties of the built-ins *)
(* ================================================================== *)

Module PyFacts.
Import Py.

Lemma append_empty_r (s : string) : (s ++ "")%string = s.
Proof. induction s as [|c s IH]; simpl; [reflexivity | now rewrite IH]. Qed.

Lemma append_assoc (s t u : string) :
  ((s ++ t) ++ u)%string = (s ++ (t ++ u))%string.
Proof. induction s as [|c s IH]; simpl; [reflexivity | now rewrite IH]. Qed.

Lemma truthy_iff (s : string) : truthy s = true <-> s <> "".
Proof. destruct s; simpl; split; congruence. Qed.

Lemma truthy_false_iff (s : string) : truthy s = false <-> s = "".
Proof. destruct s; simpl; split; congruence. Qed.

Lemma take_length (n : nat) (s : string) : String.length (take n s) <= n.
Proof.
  revert s; induction n as [|n IH]; intros [|c s]; simpl; try lia.
  specialize (IH s); lia.
Qed.

Lemma take_short (n : nat) (s : string) :
  String.length s <= n -> take n s = s.
Proof.
  revert s; induction n as [|n IH]; intros [|c s]; simpl; intros H;
    try reflexivity; try lia.
  rewrite IH by lia; reflexivity.
Qed.

Lemma take_nonempty (n : nat) (s : string) :
  s <> "" -> take (S n) s <> "".
Proof. destruct s; simpl; congruence. Qed.

Lemma float_of_str_empty : float_of_str "" = None.
Proof. reflexivity. Qed.

End PyFacts.

Module ReFacts.
Import Re.

Lemma special_not_alnum (c : ascii) : is_special c = true -> is_alnum c = false.
Proof.
  destruct c as [[] [] [] [] [] [] [] []]; vm_compute; congruence.
Qed.

Lemma tokenize_escaped (c : ascii) (s : string) :
  is_alnum c = false ->
  tokenize (String "\" (String c s)) = option_map (cons (TChar c)) (tokenize s).
Proof. intros H; cbn [tokenize]; rewrite H; reflexivity. Qed.

Lemma tokenize_plain (c : ascii) (s : string) :
  is_special c = false ->
  tokenize (String c s) = option_map (cons (TChar c)) (tokenize s).
Proof.
  destruct c as [[] [] [] [] [] [] [] []]; intros H;
    solve [ discriminate H | reflexivity ].
Qed.

Lemma tokenize_escape (q : string) :
  tokenize (escape q) = Some (map TChar (list_ascii_of_string q)).
Proof.
  induction q as [|c q IH]; [reflexivity|].
  cbn [escape list_ascii_of_string map].
  destruct (is_special c) eqn:E.
  - rewrite tokenize_escaped by (apply special_not_alnum; exact E).
    rewrite IH; reflexivity.
  - rewrite tokenize_plain by exact E.
    rewrite IH; reflexivity.
Qed.

Lemma postfix_chars (r : regex) (q : string) :
  postfix r (map TChar (list_ascii_of_string q))
  = (r, map TChar (list_ascii_of_string q)).
Proof. destruct q; reflexivity. Qed.

Lemma parse_seq_chars (q : string) :
  forall n : nat,
    String.length q + 1 <= n ->
    parse_seq n (map TChar (list_ascii_of_string q)) = Some (lits q, []).
Proof.
  induction q as [|c q IH]; intros n Hn.
  - destruct n as [|n]; [simpl in Hn; lia | reflexivity].
  - simpl in Hn.
    destruct n as [|[|n]]; try lia.
    cbn [list_ascii_of_string map lits].
    change (parse_seq (S (S n)) (TChar c :: map TChar (list_ascii_of_string q)))
      with (match parse_item (S n) (TChar c :: map TChar (list_ascii_of_string q)) with
            | Some (r1, ts') =>
                match parse_seq (S n) ts' with
                | Some (r2, ts'') => Some (Cat r1 r2, ts'')
                | None => None
                end
            | None => None
            end).
    change (parse_item (S n) (TChar c :: map TChar (list_ascii_of_string q)))
      with (Some (postfix (Lit c) (map TChar (list_ascii_of_string q)))).
    rewrite postfix_chars, IH by lia.
    reflexivity.
Qed.

Lemma length_chars (q : string) :
  List.length (map TChar (list_ascii_of_string q)) = String.length q.
Proof. induction q as [|c q IH]; simpl; [reflexivity | now rewrite IH]. Qed.

(** An escaped string always compiles, to the expression of its
    characters. *)
Lemma compile_escape (q : string) (ic : bool) :
  compile (escape q) ic = Some (mkPattern (lits q) ic).
Proof.
  unfold compile.
  rewrite tokenize_escape, length_chars.
  set (n := 2 * String.length q + 2).
  assert (Hn : String.length q + 1 <= n - 1) by (unfold n; lia).
  destruct n as [|n]; [lia|].
  replace (S n - 1) with n in Hn by lia.
  change (parse_alt (S n) (map TChar (list_ascii_of_string q)))
    with (match parse_seq n (map TChar (list_ascii_of_string q)) with
          | Some (r1, TBar :: ts') =>
              match parse_alt n ts' with
              | Some (r2, ts'') => Some (Alt r1 r2, ts'')
              | None => None
              end
          | other => other
          end).
  rewrite parse_seq_chars by exact Hn.
  reflexivity.
Qed.

Lemma match_prefix_alt (ic : bool) (s : string) :
  forall r1 r2 : regex,
    match_prefix ic (Alt r1 r2) s = match_prefix ic r1 s || match_prefix ic r2 s.
Proof.
  induction s as [|d s IH]; intros r1 r2; cbn [match_prefix nullable deriv].
  - now rewrite !orb_false_r.
  - rewrite IH.
    destruct (nullable r1), (nullable r2),
      (match_prefix ic (deriv ic d r1) s), (match_prefix ic (deriv ic d r2) s);
      reflexivity.
Qed.

Lemma match_prefix_cat_void (ic : bool) (r : regex) (s : string) :
  match_prefix ic (Cat Void r) s = false.
Proof. induction s as [|d s IH]; cbn [match_prefix nullable deriv andb orb]; auto. Qed.

Lemma match_prefix_cat_eps (ic : bool) (r : regex) (s : string) :
  match_prefix ic (Cat Eps r) s = match_prefix ic r s.
Proof.
  destruct s as [|d s]; cbn [match_prefix nullable deriv andb]; [reflexivity|].
  now rewrite match_prefix_alt, match_prefix_cat_void.
Qed.

(** A literal expression matches a prefix exactly when the subject starts
    with its characters, up to case. *)
Lemma match_prefix_lits (q : string) :
  forall s : string,
    match_prefix true (lits q) s = true <->
    exists mid post : string,
      s = (mid ++ post)%string /\ Py.lower_str mid = Py.lower_str q.
Proof.
  induction q as [|c q IH]; intros s.
  - split; [intros _ | intros _; destruct s; reflexivity].
    exists EmptyString, s; split; reflexivity.
  - destruct s as [|d s]; cbn [lits match_prefix nullable deriv andb orb].
    + split; [discriminate|].
      intros ([|e mid] & post & Hs & Hl); simpl in *; discriminate.
    + unfold chr_eq.
      destruct (Ascii.eqb_spec (Py.lower c) (Py.lower d)) as [E|E].
      * rewrite match_prefix_cat_eps, IH.
        split.
        -- intros (mid & post & -> & Hl).
           exists (String d mid), post; split; [reflexivity|].
           simpl; rewrite Hl, E; reflexivity.
        -- intros ([|e mid] & post & Hs & Hl); simpl in *; [discriminate|].
           injection Hs as -> ->. injection Hl as _ Hl.
           exists mid, post; split; [reflexivity | exact Hl].
      * rewrite match_prefix_cat_void.
        split; [discriminate|].
        intros ([|e mid] & post & Hs & Hl); simpl in *; [discriminate|].
        injection Hs as -> ->. injection Hl as Hc _.
        congruence.
Qed.

(** Searching for an escaped-and-compiled query is the case-insensitive
    substring test. *)
Lemma search_from_lits (q s : string) :
  search_from true (lits q) s = true <-> Spec.contains_ci q s.
Proof.
  unfold Spec.contains_ci.
  induction s as [|d s IH]; cbn [search_from].
  - rewrite orb_false_r, match_prefix_lits.
    split.
    + intros (mid & post & Hs & Hl); exists EmptyString, mid, post; auto.
    + intros ([|e pre] & mid & post & Hs & Hl); simpl in Hs; [|discriminate].
      exists mid, post; auto.
  - rewrite orb_true_iff, match_prefix_lits, IH.
    split.
    + intros [(mid & post & Hs & Hl) | (pre & mid & post & Hs & Hl)].
      * exists EmptyString, mid, post; auto.
      * exists (String d pre), mid, post; split; [simpl; now rewrite Hs | exact Hl].
    + intros ([|e pre] & mid & post & Hs & Hl); simpl in Hs.
      * left; exists mid, post; auto.
      * right; injection Hs as -> ->. exists pre, mid, post; auto.
Qed.

End ReFacts.

(* ================================================================== *)
(** * Properties of the search handler *)
(* ================================================================== *)

Import Mongo App Spec.

Module SearchFacts.

Section WithCentroid.

Variable centroid_for : option string -> option string -> option (Py.float * Py.float).

Lemma text_logic_regex (filters : list filter) (q field : string) :
  q <> "" ->
  text_logic filters q field false =
    let r := Re.mkPattern (Re.lits q) true in
    if (field =? "all")%string then
      Some (filters ++ [FOr [FRegex "title" r; FRegex "description" r;
                             FRegex "winery" r; FRegex "variety" r]])
    else if existsb (String.eqb field) ["title"; "description"; "variety"; "winery"]
    then Some (filters ++ [FRegex field r])
    else Some filters.
Proof.
  intros Hq. unfold text_logic, regex_safe.
  apply PyFacts.truthy_iff in Hq. rewrite Hq, ReFacts.compile_escape.
  reflexivity.
Qed.

(** The text block never raises: the escaped query always compiles. *)
Lemma text_logic_total (filters : list filter) (q field : string) (use_text : bool) :
  exists fs : list filter, text_logic filters q field use_text = Some (filters ++ fs).
Proof.
  destruct (Py.truthy q) eqn:Hq.
  - destruct use_text.
    + unfold text_logic; rewrite Hq; eauto.
    + rewrite text_logic_regex by (apply PyFacts.truthy_iff; exact Hq).
      cbv zeta.
      destruct (field =? "all")%string; [eauto|].
      destruct (existsb _ _); [eauto|].
      exists []; now rewrite app_nil_r.
  - unfold text_logic; rewrite Hq. exists []; now rewrite app_nil_r.
Qed.

Lemma facet_logic_app (filters : list filter) (c p : string) :
  facet_logic filters c p = filters ++ facet_logic [] c p.
Proof.
  unfold facet_logic.
  destruct (Py.truthy c), (Py.truthy p); simpl;
    rewrite ?app_nil_r, <- ?app_assoc; reflexivity.
Qed.

Lemma geo_logic_app (filters : list filter) (mode : string) (m : Py.float)
    (c p lat lon : string) :
  geo_logic centroid_for filters mode m c p lat lon =
    (filters ++ fst (geo_logic centroid_for [] mode m c p lat lon),
     snd (geo_logic centroid_for [] mode m c p lat lon)).
Proof.
  unfold geo_logic.
  destruct (_ && _ && _).
  - destruct (centroid_for _ _); simpl; now rewrite ?app_nil_r.
  - destruct (_ && _ && _ && _); [|simpl; now rewrite app_nil_r].
    destruct (Py.float_of_str lat); [|simpl; now rewrite app_nil_r].
    destruct (Py.float_of_str lon); simpl; now rewrite ?app_nil_r.
Qed.

Lemma search_filters_total (a : params) :
  exists (fs : list filter) (center : option (Py.float * Py.float)),
    search_filters centroid_for a = Some (fs, center).
Proof.
  unfold search_filters.
  destruct (text_logic_total [] (arg_q a) (arg_field a) (arg_use_text a)) as [fs ->].
  destruct (geo_logic _ _ _ _ _ _ _ _) as [gs center]; eauto.
Qed.

Lemma search_total (a : params) :
  exists plan : find_plan, search centroid_for a = Some plan.
Proof.
  unfold search.
  destruct (search_filters_total a) as (fs & center & ->); eauto.
Qed.

End WithCentroid.

End SearchFacts.

(** ** C7: an unrecognized field selector drops the text clause *)

(** C7.  For a request with non-empty query text, text mode off and a field
    selector outside all/title/description/variety/winery, the text block
    adds no predicate; the handler does not fail: it produces a plan, none
    of whose filters is a text predicate, and the plan is the one of the
    same request submitted with an empty query. *)
Theorem unknown_field_drops_text_clause :
  forall (centroid_for : centroid_oracle) (a : params),
    arg_q a <> "" ->
    arg_use_text a = false ->
    ~ In (arg_field a) recognized_fields ->
    text_logic [] (arg_q a) (arg_field a) (arg_use_text a) = Some [] /\
    (exists (fs : list filter) (center : option (Py.float * Py.float)),
        search_filters centroid_for a = Some (fs, center) /\
        forallb (fun f => negb (is_text_predicate f)) fs = true) /\
    (exists plan : find_plan,
        search centroid_for a = Some plan /\
        search centroid_for (with_param "q" "" a) = Some plan).
Proof.
  intros cf a Hq Htext Hfield.
  assert (Ht : text_logic [] (arg_q a) (arg_field a) (arg_use_text a) = Some []).
  { rewrite Htext, SearchFacts.text_logic_regex by exact Hq.
    cbv zeta. unfold recognized_fields in Hfield.
    destruct (String.eqb_spec (arg_field a) "all") as [E|_].
    { exfalso; apply Hfield; left; auto. }
    destruct (existsb _ _) eqn:Ex; [|reflexivity].
    exfalso; apply Hfield.
    apply existsb_exists in Ex. destruct Ex as (x & Hin & Hx).
    apply String.eqb_eq in Hx; subst x. right; simpl in Hin; simpl; intuition. }
  assert (Hs : search_filters cf a =
               Some (geo_logic cf (facet_logic [] (arg_country a) (arg_province a))
                       (arg_geo_mode a) (arg_max_m a) (arg_country a)
                       (arg_province a) (arg_lat a) (arg_lon a))).
  { unfold search_filters; rewrite Ht; reflexivity. }
  assert (Hs' : search_filters cf (with_param "q" "" a) = search_filters cf a).
  { rewrite Hs; reflexivity. }
  split; [exact Ht|]. split.
  - rewrite Hs.
    destruct (geo_logic _ _ _ _ _ _ _ _) as [fs center] eqn:G.
    exists fs, center; split; [reflexivity|].
    unfold geo_logic, facet_logic, centerSphere in G.
    repeat match type of G with
           | context [if ?b then _ else _] => destruct b
           | context [match ?o with Some _ => _ | None => _ end] => destruct o
           end; injection G as <- _; reflexivity.
  - unfold search. rewrite Hs'.
    destruct (SearchFacts.search_filters_total cf a) as (fs & center & ->).
    eexists; split; reflexivity.
Qed.

Lemma unknown_field_drops_text_clause_witness :
  search (fun _ _ => None) [("q", "merlot"); ("field", "taster")]
  = search (fun _ _ => None) (with_param "q" "" [("q", "merlot"); ("field", "taster")]).
Proof.
  destruct (unknown_field_drops_text_clause (fun _ _ => None)
              [("q", "merlot"); ("field", "taster")]) as (_ & _ & plan & H1 & H2).
  - vm_compute; discriminate.
  - reflexivity.
  - vm_compute; intuition discriminate.
  - rewrite H1, H2; reflexivity.
Defined.

(** ** C5: the sort key *)

(** The sort key of a request whose [sort_by] was submitted: the trimmed
    value, or the default when the value is empty. *)
Lemma arg_sort_by_submitted (a : params) (v : string) :
  get "sort_by" a = Some v ->
  arg_sort_by a = Py.strip v \/ (Py.strip v = "" /\ arg_sort_by a = "points_desc").
Proof.
  intros H. unfold arg_sort_by. rewrite H.
  destruct v as [|c v]; [right; split; reflexivity | left; reflexivity].
Qed.

(** C5.  The plan of a search sorts by price ascending for [price_asc], by
    price descending for [price_desc], by score ascending for [points_asc]
    and by score descending for every other key: this holds of the sort key
    the handler computes and of the submitted parameter (trimmed) alike; a
    request whose key is omitted, or unrecognized such as [bogus], has the
    very plan of the same request with [sort_by=points_desc]. *)
Theorem sort_key_mapping :
  forall (centroid_for : centroid_oracle) (a : params) (plan : find_plan),
    search centroid_for a = Some plan ->
    (arg_sort_by a = "price_asc" -> plan_sort plan = [("price", ASCENDING)]) /\
    (arg_sort_by a = "price_desc" -> plan_sort plan = [("price", DESCENDING)]) /\
    (arg_sort_by a = "points_asc" -> plan_sort plan = [("points", ASCENDING)]) /\
    (arg_sort_by a <> "price_asc" -> arg_sort_by a <> "price_desc" ->
     arg_sort_by a <> "points_asc" ->
       plan_sort plan = [("points", DESCENDING)] /\
       search centroid_for (with_param "sort_by" "points_desc" a) = Some plan) /\
    (get "sort_by" a = None \/ get "sort_by" a = Some "bogus" ->
       search centroid_for (with_param "sort_by" "points_desc" a) = Some plan) /\
    (forall v : string,
        get "sort_by" a = Some v ->
        (Py.strip v = "price_asc" -> plan_sort plan = [("price", ASCENDING)]) /\
        (Py.strip v = "price_desc" -> plan_sort plan = [("price", DESCENDING)]) /\
        (Py.strip v = "points_asc" -> plan_sort plan = [("points", ASCENDING)]) /\
        (Py.strip v <> "price_asc" -> Py.strip v <> "price_desc" ->
         Py.strip v <> "points_asc" ->
           plan_sort plan = [("points", DESCENDING)] /\
           search centroid_for (with_param "sort_by" "points_desc" a) = Some plan)) /\
    (get "sort_by" a = None ->
       plan_sort plan = [("points", DESCENDING)]).
Proof.
  intros cf a plan H.
  assert (Hs : forall v, search_filters cf (with_param "sort_by" v a)
                         = search_filters cf a) by reflexivity.
  assert (Hplan : plan_sort plan = sort_order (arg_sort_by a)).
  { unfold search in H. destruct (search_filters cf a) as [[fs c]|]; [|discriminate].
    injection H as <-; reflexivity. }
  assert (Hdefault : sort_order (arg_sort_by a) = [("points", DESCENDING)] ->
                     search cf (with_param "sort_by" "points_desc" a) = Some plan).
  { intros E. unfold search in *. rewrite Hs.
    destruct (search_filters cf a) as [[fs c]|]; [|discriminate].
    injection H as <-. rewrite E. reflexivity. }
  assert (Hother : arg_sort_by a <> "price_asc" -> arg_sort_by a <> "price_desc" ->
                   arg_sort_by a <> "points_asc" ->
                   sort_order (arg_sort_by a) = [("points", DESCENDING)]).
  { intros N1 N2 N3. unfold sort_order.
    apply String.eqb_neq in N1, N2, N3. rewrite N1, N2, N3. reflexivity. }
  split; [intros E; rewrite Hplan, E; reflexivity|].
  split; [intros E; rewrite Hplan, E; reflexivity|].
  split; [intros E; rewrite Hplan, E; reflexivity|].
  split; [intros N1 N2 N3; rewrite Hplan; auto|].
  split; [intros [E|E]; apply Hdefault; unfold arg_sort_by; rewrite E; reflexivity|].
  split.
  - intros v Hv.
    destruct (arg_sort_by_submitted a v Hv) as [E | [E0 E]].
    + rewrite Hplan, E.
      split; [intros ->; reflexivity|].
      split; [intros ->; reflexivity|].
      split; [intros ->; reflexivity|].
      intros N1 N2 N3. rewrite <- E in N1, N2, N3.
      split; [rewrite <- E|]; auto.
    + rewrite Hplan, E, E0.
      split; [discriminate|]. split; [discriminate|]. split; [discriminate|].
      intros _ _ _. split; [reflexivity|].
      apply Hdefault. rewrite E. reflexivity.
  - intros E. rewrite Hplan. unfold arg_sort_by. rewrite E. reflexivity.
Qed.

Lemma sort_key_mapping_witness :
  (exists plan : find_plan,
      search (fun _ _ => None) [("sort_by", " price_asc ")] = Some plan /\
      plan_sort plan = [("price", ASCENDING)]) /\
  (exists plan : find_plan,
      search (fun _ _ => None) [("sort_by", "price_desc")] = Some plan /\
      plan_sort plan = [("price", DESCENDING)]) /\
  (exists plan : find_plan,
      search (fun _ _ => None) [("sort_by", "points_asc")] = Some plan /\
      plan_sort plan = [("points", ASCENDING)]) /\
  (exists plan : find_plan,
      search (fun _ _ => None) [("q", "oak")] = Some plan /\
      plan_sort plan = [("points", DESCENDING)]) /\
  search (fun _ _ => None) (with_param "sort_by" "points_desc" [("sort_by", "bogus")])
  = Some (mkPlan match_all projection [("points", DESCENDING)] 50).
Proof.
  pose (cf := (fun _ _ => None) : centroid_oracle).
  split; [|split; [|split; [|split]]].
  - eexists. split; [reflexivity|].
    destruct (sort_key_mapping cf [("sort_by", " price_asc ")] _ eq_refl)
      as (_ & _ & _ & _ & _ & H & _).
    apply (H " price_asc " eq_refl). reflexivity.
  - eexists. split; [reflexivity|].
    destruct (sort_key_mapping cf [("sort_by", "price_desc")] _ eq_refl)
      as (_ & _ & _ & _ & _ & H & _).
    apply (H "price_desc" eq_refl). reflexivity.
  - eexists. split; [reflexivity|].
    destruct (sort_key_mapping cf [("sort_by", "points_asc")] _ eq_refl)
      as (_ & _ & _ & _ & _ & H & _).
    apply (H "points_asc" eq_refl). reflexivity.
  - eexists. split; [reflexivity|].
    destruct (sort_key_mapping cf [("q", "oak")] _ eq_refl)
      as (_ & _ & _ & _ & _ & _ & H).
    apply H. reflexivity.
  - destruct (sort_key_mapping cf [("sort_by", "bogus")]
                (mkPlan match_all projection [("points", DESCENDING)] 50) eq_refl)
      as (_ & _ & _ & _ & H & _).
    apply H. right; reflexivity.
Defined.

(** ** C1: the regex filter over all fields is a literal substring search *)

Lemma regex_filter_matches (ti : string -> wine -> bool)
    (gi : Py.float * Py.float -> Py.float -> wine -> bool)
    (field q : string) (w : wine) :
  matches ti gi (FRegex field (Re.mkPattern (Re.lits q) true)) w = true
  <-> field_contains q (get_field field w).
Proof.
  unfold field_contains; cbn [matches].
  destruct (get_field field w) as [|s].
  - split; [discriminate | intros (s & H & _); discriminate].
  - unfold Re.search; cbn [Re.pat_re Re.pat_ignorecase].
    rewrite ReFacts.search_from_lits.
    split.
    + intros H; exists s; auto.
    + intros (s' & E & H); injection E as ->; exact H.
Qed.

(** C1.  For a request with non-empty query text, text mode off and field
    selector [all], the search builds one text filter, the first conjunct
    of the query, and that filter matches a record if and only if the
    title, description, winery or variety of the record is a string that
    contains the query as a literal substring up to letter case; when no
    facet is set and the geo mode is not [by_coords] that filter is the
    whole query. *)
Theorem regex_all_fields_is_substring_search :
  forall (centroid_for : centroid_oracle) (a : params),
    arg_q a <> "" ->
    arg_use_text a = false ->
    arg_field a = "all" ->
    exists (f : filter) (rest : list filter) (center : option (Py.float * Py.float)),
      search_filters centroid_for a = Some (f :: rest, center) /\
      search centroid_for a
        = Some (mkPlan (FAnd (f :: rest)) projection (sort_order (arg_sort_by a)) 50) /\
      (forall ti gi (w : wine),
          matches ti gi f w = true <->
          field_contains (arg_q a) (title w) \/
          field_contains (arg_q a) (description w) \/
          field_contains (arg_q a) (winery w) \/
          field_contains (arg_q a) (variety w)) /\
      (arg_country a = "" -> arg_province a = "" -> arg_geo_mode a <> "by_coords" ->
       rest = []).
Proof.
  intros cf a Hq Htext Hfield.
  set (r := Re.mkPattern (Re.lits (arg_q a)) true).
  set (f := FOr [FRegex "title" r; FRegex "description" r;
                 FRegex "winery" r; FRegex "variety" r]).
  assert (Ht : text_logic [] (arg_q a) (arg_field a) (arg_use_text a) = Some [f]).
  { rewrite Htext, Hfield, SearchFacts.text_logic_regex by exact Hq. reflexivity. }
  assert (Hs : search_filters cf a =
               Some (geo_logic cf (facet_logic [f] (arg_country a) (arg_province a))
                       (arg_geo_mode a) (arg_max_m a) (arg_country a)
                       (arg_province a) (arg_lat a) (arg_lon a))).
  { unfold search_filters; rewrite Ht; reflexivity. }
  rewrite SearchFacts.geo_logic_app, SearchFacts.facet_logic_app in Hs.
  rewrite <- app_assoc in Hs. cbn [app] in Hs.
  eexists f, _, _. split; [exact Hs|]. split; [|split].
  - unfold search; rewrite Hs; reflexivity.
  - intros ti gi w.
    assert (E : matches ti gi f w =
                matches ti gi (FRegex "title" r) w
                || (matches ti gi (FRegex "description" r) w
                    || (matches ti gi (FRegex "winery" r) w
                        || (matches ti gi (FRegex "variety" r) w || false))))
      by reflexivity.
    rewrite E, orb_false_r, !orb_true_iff.
    unfold r; rewrite !regex_filter_matches. reflexivity.
  - intros Hc Hp Hg.
    unfold facet_logic, geo_logic; rewrite Hc, Hp.
    apply String.eqb_neq in Hg; rewrite Hg.
    rewrite !andb_false_r; cbn [Py.truthy andb orb fst app].
    reflexivity.
Qed.

Lemma regex_all_fields_is_substring_search_witness :
  exists (f : filter),
    search (fun _ _ => None) [("q", "a.b")]
      = Some (mkPlan (FAnd [f]) projection [("points", DESCENDING)] 50) /\
    forall ti gi (w : wine),
      matches ti gi f w = true <->
      field_contains "a.b" (title w) \/ field_contains "a.b" (description w) \/
      field_contains "a.b" (winery w) \/ field_contains "a.b" (variety w).
Proof.
  destruct (regex_all_fields_is_substring_search (fun _ _ => None) [("q", "a.b")])
    as (f & rest & center & Hs & Hp & Hm & Hrest).
  - vm_compute; discriminate.
  - reflexivity.
  - reflexivity.
  - exists f. rewrite Hrest in Hp.
    + split; [exact Hp | exact Hm].
    + reflexivity.
    + reflexivity.
    + vm_compute; discriminate.
Defined.

(** The query [a.b] finds [xA.By] and does not find [axb]; the unescaped
    pattern would. *)
Example dot_is_literal :
  forall ti gi (w : wine) (plan : find_plan),
    search (fun _ _ => None) [("q", "a.b")] = Some plan ->
    title w = VStr "axb" -> description w = VStr "xA.By" ->
    winery w = VNull -> variety w = VNull ->
    matches ti gi (plan_query plan) w = true /\
    matches ti gi (plan_query plan)
      (mkWine (wine_id w) (title w) VNull VNull VNull VNull VNull []) = false /\
    option_map (fun p => Re.search p "axb") (Re.compile "a.b" true) = Some true.
Proof.
  intros ti gi w plan H Ht Hd Hw Hv.
  injection H as <-.
  destruct w as [i t d wi v c p cs]; simpl in Ht, Hd, Hw, Hv; subst.
  repeat split; vm_compute; reflexivity.
Qed.

(** Letter case is folded beyond ASCII: the query Caf-e-acute finds the
    title CAF-E-acute NOIR. *)
Example accented_letters_fold :
  forall ti gi,
    let q := ("Caf" ++ String (ascii_of_nat 233) "")%string in
    let t := ("CAF" ++ String (ascii_of_nat 201) " NOIR")%string in
    option_map
      (fun plan =>
         matches ti gi (plan_query plan)
           (mkWine "000000000000000000000001" (VStr t) VNull VNull VNull VNull VNull []))
      (search (fun _ _ => None) [("q", q)])
    = Some true.
Proof. intros ti gi. vm_compute. reflexivity. Qed.

(** ** C3, C6, C10: the radius and the geospatial block *)

Ltac split_branches H :=
  repeat match type of H with
         | context [if ?b then _ else _] => destruct b eqn:?
         | context [match ?o with Some _ => _ | None => _ end] => destruct o eqn:?
         end.

Lemma text_logic_not_geo (q field : string) (use_text : bool) (fs : list filter) :
  text_logic [] q field use_text = Some fs ->
  forallb (fun f => negb (is_geo_predicate f)) fs = true.
Proof.
  unfold text_logic; intros H; split_branches H;
    try discriminate; injection H as <-; reflexivity.
Qed.

Lemma filters_before_geo_not_geo (a : params) (fs : list filter) :
  filters_before_geo a = Some fs ->
  forallb (fun f => negb (is_geo_predicate f)) fs = true.
Proof.
  unfold filters_before_geo; intros H.
  destruct (text_logic _ _ _ _) as [tf|] eqn:T; [|discriminate].
  injection H as <-. apply text_logic_not_geo in T.
  rewrite SearchFacts.facet_logic_app, forallb_app, T.
  unfold facet_logic; destruct (Py.truthy _), (Py.truthy _); reflexivity.
Qed.

Lemma filters_before_geo_total (a : params) :
  exists fs : list filter, filters_before_geo a = Some fs.
Proof.
  unfold filters_before_geo.
  destruct (SearchFacts.text_logic_total [] (arg_q a) (arg_field a) (arg_use_text a))
    as [fs ->]; simpl; eauto.
Qed.

Lemma search_filters_geo (centroid_for : centroid_oracle) (a : params) (fs : list filter) :
  filters_before_geo a = Some fs ->
  search_filters centroid_for a =
    Some (geo_logic centroid_for fs (arg_geo_mode a) (arg_max_m a)
            (arg_country a) (arg_province a) (arg_lat a) (arg_lon a)).
Proof.
  unfold filters_before_geo, search_filters.
  destruct (text_logic _ _ _ _); [|discriminate].
  intros H; injection H as <-; reflexivity.
Qed.

Lemma shr_1_nonneg (mrs : shr_record) :
  (0 <= shr_m mrs)%Z -> (0 <= shr_m (shr_1 mrs))%Z.
Proof.
  destruct mrs as [m r s]. destruct m as [|[p|p|]|[p|p|]]; cbn; lia.
Qed.

Lemma iter_shr_1_nonneg (p : positive) :
  forall mrs : shr_record,
    (0 <= shr_m mrs)%Z -> (0 <= shr_m (iter_pos shr_1 p mrs))%Z.
Proof.
  induction p as [p IH|p IH|]; intros mrs H; cbn [iter_pos];
    auto using shr_1_nonneg.
Qed.

Lemma shr_fexp_nonneg (m e : Z) (l : location) :
  (0 <= m)%Z -> (0 <= shr_m (fst (shr_fexp Py.prec Py.emax m e l)))%Z.
Proof.
  intros H. unfold shr_fexp, shr.
  assert (H0 : (0 <= shr_m (shr_record_of_loc m l))%Z)
    by (destruct l as [|[]]; exact H).
  destruct (_ - e)%Z; cbn [fst]; auto using iter_shr_1_nonneg.
Qed.

Lemma binary_round_aux_nonneg (m e : Z) (l : location) :
  (0 <= m)%Z ->
  Py.fleb Py.fzero (binary_round_aux Py.prec Py.emax false m e l) = true.
Proof.
  intros H. unfold binary_round_aux.
  pose proof (shr_fexp_nonneg m e l H) as H1.
  destruct (shr_fexp Py.prec Py.emax m e l) as [mrs' e'].
  cbn [fst] in H1.
  assert (H2 : (0 <= round_nearest_even (shr_m mrs') (loc_of_shr_record mrs'))%Z).
  { unfold round_nearest_even.
    destruct (loc_of_shr_record mrs') as [|[]]; try lia.
    destruct (Z.even (shr_m mrs')); lia. }
  pose proof (shr_fexp_nonneg _ e' loc_Exact H2) as H3.
  destruct (shr_fexp Py.prec Py.emax _ e' loc_Exact) as [mrs'' e''].
  cbn [fst] in H3.
  destruct (shr_m mrs'') as [|p|p]; [reflexivity | | lia].
  destruct (Z.leb _ _); reflexivity.
Qed.

(** The division by the radius of the Earth keeps the sign: a positive
    length in meters gives an angle that is positive, or zero when the
    quotient is too small for a float. *)
Lemma angular_radius_nonneg (m : Py.float) :
  Py.fltb Py.fzero m = true ->
  Py.fleb Py.fzero (Py.fdiv m earth_radius) = true.
Proof.
  intros H.
  destruct earth_radius as [s|s| |s my ey] eqn:E; try (vm_compute in E; discriminate E).
  assert (Hs : s = false) by (vm_compute in E; congruence).
  subst s.
  destruct m as [sm|sm| |sm mx ex]; try discriminate H.
  - destruct sm; [discriminate H | reflexivity].
  - destruct sm; [discriminate H|].
    unfold Py.fdiv, SFdiv. cbn [xorb].
    destruct (SFdiv_core_binary Py.prec Py.emax (Z.pos mx) ex (Z.pos my) ey)
      as [[mz ez] lz] eqn:D.
    apply binary_round_aux_nonneg.
    unfold SFdiv_core_binary in D.
    match type of D with
    | (let '(q, r) := Z.div_eucl ?a ?b in _) = _ =>
        pose proof (Z.div_pos a b) as Hq;
        unfold Z.div in Hq; destruct (Z.div_eucl a b) as [q r]
    end.
    injection D as <- _ _. apply Hq; [|lia].
    destruct (_ - _ - _)%Z; try lia. apply Z.shiftl_nonneg. lia.
Qed.

(** The radius of the request [radius=-5] is negative: -5000 meters. *)
Lemma radius_can_be_negative :
  arg_max_m [("radius", "-5")] = Py.of_decimal true 5000 0 /\
  Py.fleb Py.fzero (arg_max_m [("radius", "-5")]) = false.
Proof. split; vm_compute; reflexivity. Qed.

(** C3, amended.  When the conversion of the radius fails the radius is
    zero and the request gets no geo predicate; and behind every geo
    predicate of a request the converted radius, in meters, is strictly
    positive, while the radius the predicate carries, those meters divided
    by the radius of the Earth, is never negative (it is zero when the
    quotient is too small for a float). *)
Theorem radius_positive_in_geo_predicate :
  forall (centroid_for : centroid_oracle) (a : params),
    (Py.float_of_str (arg_radius a) = None ->
       arg_max_m a = Py.fzero /\
       exists fs : list filter,
         filters_before_geo a = Some fs /\
         search_filters centroid_for a = Some (fs, None)) /\
    (forall (fs : list filter) (center : option (Py.float * Py.float)),
       search_filters centroid_for a = Some (fs, center) ->
       forall (c : Py.float * Py.float) (r : Py.float),
         In (FGeoWithin c r) fs ->
         Py.fltb Py.fzero (arg_max_m a) = true /\
         r = Py.fdiv (arg_max_m a) earth_radius /\
         Py.fleb Py.fzero r = true).
Proof.
  intros cf a. split.
  - intros Hr.
    assert (Hm : arg_max_m a = Py.fzero)
      by (unfold arg_max_m, km_to_meters; rewrite Hr; reflexivity).
    split; [exact Hm|].
    destruct (filters_before_geo_total a) as [fs Hfs].
    exists fs; split; [exact Hfs|].
    rewrite (search_filters_geo cf a fs Hfs), Hm.
    unfold geo_logic. change (Py.fltb Py.fzero Py.fzero) with false.
    rewrite !andb_false_r. reflexivity.
  - intros fs center Hs c r Hin.
    destruct (filters_before_geo_total a) as [bs Hbs].
    rewrite (search_filters_geo cf a bs Hbs) in Hs.
    pose proof (filters_before_geo_not_geo a bs Hbs) as Hng.
    assert (Hnot : ~ In (FGeoWithin c r) bs).
    { intros Hb. rewrite forallb_forall in Hng. apply Hng in Hb. discriminate. }
    unfold geo_logic, centerSphere in Hs.
    split_branches Hs; injection Hs as <- <-;
      try (exfalso; exact (Hnot Hin));
      apply in_app_or in Hin; destruct Hin as [Hin|[Hin|[]]];
      try (exfalso; exact (Hnot Hin));
      injection Hin as <- <-;
      repeat match goal with
             | H : _ && _ = true |- _ => apply andb_prop in H; destruct H
             end;
      (split; [assumption | split; [reflexivity | apply angular_radius_nonneg; assumption]]).
Qed.

(** A radius of 1e-320 km is positive in meters, and the angle of its geo
    predicate is zero. *)
Example tiny_radius_gives_zero_angle :
  Py.fltb Py.fzero (arg_max_m [("radius", "1e-320")]) = true /\
  Py.fdiv (arg_max_m [("radius", "1e-320")]) earth_radius = Py.fzero.
Proof. split; vm_compute; reflexivity. Qed.

Lemma radius_positive_in_geo_predicate_witness :
  arg_max_m [("radius", "ten")] = Py.fzero /\
  Py.fltb Py.fzero (arg_max_m [("geo_mode", "by_coords"); ("lat", "1"); ("lon", "2")]) = true.
Proof.
  split.
  - apply (proj1 (radius_positive_in_geo_predicate (fun _ _ => None) [("radius", "ten")])).
    reflexivity.
  - pose (a := [("geo_mode", "by_coords"); ("lat", "1"); ("lon", "2")]).
    refine (proj1 (proj2 (radius_positive_in_geo_predicate (fun _ _ => None) a)
                     [centerSphere (Py.of_decimal false 2 0, Py.of_decimal false 1 0)
                        (arg_max_m a)]
                     (Some (Py.of_decimal false 2 0, Py.of_decimal false 1 0)) _
                     (Py.of_decimal false 2 0, Py.of_decimal false 1 0)
                     (Py.fdiv (arg_max_m a) earth_radius) _)).
    + vm_compute; reflexivity.
    + left; reflexivity.
Defined.

Lemma float_of_str_truthy (s : string) (f : Py.float) :
  Py.float_of_str s = Some f -> Py.truthy s = true.
Proof. destruct s; [discriminate | reflexivity]. Qed.

(** C6.  In mode [by_coords]: when the latitude or the longitude does not
    parse as a float, the handler does not fail and the request has exactly
    the filters built before the geospatial block, none of them a geo
    predicate, and no center; when both parse and the radius is positive,
    one geo predicate is added, centered exactly on the parsed
    (longitude, latitude) pair. *)
Theorem by_coords_malformed_is_ignored :
  forall (centroid_for : centroid_oracle) (a : params),
    arg_geo_mode a = "by_coords" ->
    (Py.float_of_str (arg_lat a) = None \/ Py.float_of_str (arg_lon a) = None ->
       exists fs : list filter,
         filters_before_geo a = Some fs /\
         search_filters centroid_for a = Some (fs, None) /\
         forallb (fun f => negb (is_geo_predicate f)) fs = true /\
         search centroid_for a
           = Some (mkPlan (match fs with [] => match_all | _ => FAnd fs end)
                     projection (sort_order (arg_sort_by a)) 50)) /\
    (forall lat lon : Py.float,
       Py.float_of_str (arg_lat a) = Some lat ->
       Py.float_of_str (arg_lon a) = Some lon ->
       Py.fltb Py.fzero (arg_max_m a) = true ->
       exists fs : list filter,
         filters_before_geo a = Some fs /\
         search_filters centroid_for a
           = Some (fs ++ [centerSphere (lon, lat) (arg_max_m a)], Some (lon, lat))).
Proof.
  intros cf a Hmode.
  destruct (filters_before_geo_total a) as [fs Hfs].
  pose proof (search_filters_geo cf a fs Hfs) as Hs.
  unfold geo_logic in Hs. rewrite Hmode in Hs. cbn [String.eqb Ascii.eqb Bool.eqb andb] in Hs.
  split.
  - intros Hbad. exists fs.
    assert (Hs' : search_filters cf a = Some (fs, None)).
    { rewrite Hs. destruct (_ && _ && _); [|reflexivity].
      destruct Hbad as [-> | Hlon]; [reflexivity|].
      rewrite Hlon. destruct (Py.float_of_str (arg_lat a)); reflexivity. }
    split; [exact Hfs|]. split; [exact Hs'|].
    split; [exact (filters_before_geo_not_geo a fs Hfs)|].
    unfold search; rewrite Hs'; reflexivity.
  - intros lat lon Hlat Hlon Hpos. exists fs. split; [exact Hfs|].
    rewrite Hs, Hpos, Hlat, Hlon.
    rewrite (float_of_str_truthy _ _ Hlat), (float_of_str_truthy _ _ Hlon).
    reflexivity.
Qed.

Lemma by_coords_malformed_is_ignored_witness :
  search_filters (fun _ _ => None)
    [("geo_mode", "by_coords"); ("lat", "north"); ("lon", "2"); ("country", "Italy")]
  = Some ([FEq "country" "Italy"], None) /\
  search_filters (fun _ _ => None)
    [("geo_mode", "by_coords"); ("lat", "1.5"); ("lon", "-2")]
  = Some ([centerSphere (Py.of_decimal true 2 0, Py.of_decimal false 15 (-1))
             (Py.of_decimal false 50000 0)],
          Some (Py.of_decimal true 2 0, Py.of_decimal false 15 (-1))).
Proof.
  split.
  - destruct (proj1 (by_coords_malformed_is_ignored (fun _ _ => None)
                       [("geo_mode", "by_coords"); ("lat", "north"); ("lon", "2");
                        ("country", "Italy")] eq_refl) (or_introl eq_refl))
      as (fs & Hfs & Hs & _).
    injection Hfs as <-. exact Hs.
  - destruct (proj2 (by_coords_malformed_is_ignored (fun _ _ => None)
                       [("geo_mode", "by_coords"); ("lat", "1.5"); ("lon", "-2")] eq_refl)
                _ _ eq_refl eq_refl eq_refl)
      as (fs & Hfs & Hs).
    injection Hfs as <-. exact Hs.
Defined.

(** C10, amended.  When the radius parameter is absent, or submitted with
    an empty value, the radius is 50 km, that is 50000 meters, which is
    positive; so in mode [by_area] with a country or a province set and a
    centroid available, the request gets a geo predicate around the
    centroid with that radius. *)
Theorem radius_defaults_to_50_km :
  forall (centroid_for : centroid_oracle) (a : params),
    get "radius" a = None \/ get "radius" a = Some "" ->
    arg_radius a = "50" /\
    arg_max_m a = Py.of_decimal false 50000 0 /\
    Py.fltb Py.fzero (arg_max_m a) = true /\
    (arg_geo_mode a = "by_area" ->
     arg_country a <> "" \/ arg_province a <> "" ->
     forall c : Py.float * Py.float,
       centroid_for (or_None (arg_country a)) (or_None (arg_province a)) = Some c ->
       exists fs : list filter,
         filters_before_geo a = Some fs /\
         search_filters centroid_for a
           = Some (fs ++ [centerSphere c (Py.of_decimal false 50000 0)], Some c)).
Proof.
  intros cf a Hr.
  assert (Hs : arg_radius a = "50")
    by (unfold arg_radius; destruct Hr as [-> | ->]; reflexivity).
  assert (Hm : arg_max_m a = Py.of_decimal false 50000 0)
    by (unfold arg_max_m; rewrite Hs; vm_compute; reflexivity).
  split; [exact Hs|]. split; [exact Hm|].
  split; [rewrite Hm; vm_compute; reflexivity|].
  intros Hmode Hfacet c Hc.
  destruct (filters_before_geo_total a) as [fs Hfs].
  exists fs; split; [exact Hfs|].
  rewrite (search_filters_geo cf a fs Hfs).
  unfold geo_logic. rewrite Hmode, Hc, Hm.
  assert (Ht : Py.truthy (arg_country a) || Py.truthy (arg_province a) = true).
  { apply orb_true_iff.
    destruct Hfacet as [H|H]; [left|right]; apply PyFacts.truthy_iff; exact H. }
  rewrite Ht. reflexivity.
Qed.

Lemma radius_defaults_to_50_km_witness :
  search_filters (fun _ _ => Some (Py.of_decimal false 12 0, Py.of_decimal false 42 0))
    [("country", "Italy"); ("radius", "")]
  = Some ([FEq "country" "Italy";
           centerSphere (Py.of_decimal false 12 0, Py.of_decimal false 42 0)
             (Py.of_decimal false 50000 0)],
          Some (Py.of_decimal false 12 0, Py.of_decimal false 42 0)).
Proof.
  pose (cf := (fun _ _ => Some (Py.of_decimal false 12 0, Py.of_decimal false 42 0))
              : centroid_oracle).
  pose (a := [("country", "Italy"); ("radius", "")]).
  destruct (radius_defaults_to_50_km cf a) as (_ & _ & _ & H).
  - right; reflexivity.
  - destruct (H eq_refl) with (c := (Py.of_decimal false 12 0, Py.of_decimal false 42 0))
      as (fs & Hfs & Hs).
    + left; vm_compute; discriminate.
    + reflexivity.
    + injection Hfs as <-. exact Hs.
Defined.

(** A radius of white space only is blank and yet is not replaced by the
    default: it is stripped to the empty string, which does not convert, so
    the radius is zero and the request of a country with a centroid gets no
    geo predicate. *)
Lemma whitespace_radius_is_zero :
  arg_radius [("country", "Italy"); ("radius", " ")] = "" /\
  arg_max_m [("country", "Italy"); ("radius", " ")] = Py.fzero /\
  search_filters (fun _ _ => Some (Py.of_decimal false 12 0, Py.of_decimal false 42 0))
    [("country", "Italy"); ("radius", " ")]
  = Some ([FEq "country" "Italy"], None).
Proof. repeat split; vm_compute; reflexivity. Qed.

(* ================================================================== *)
(** * Properties of the asset and comment handlers *)
(* ================================================================== *)

(** ** C9: the default asset *)

Lemma get_image_try_status (fs_get : oid -> option grid_file) (id : string) (r : response) :
  get_image_try fs_get id = Some r -> status r = 200.
Proof.
  unfold get_image_try; intros H.
  destruct (ObjectId id); [|discriminate].
  destruct (fs_get o); [|discriminate].
  match type of H with
  | match ?g with Some _ => _ | None => _ end = _ => destruct g; [|discriminate]
  end.
  injection H as <-; reflexivity.
Qed.

(** C9.  When the identifier does not parse as an [ObjectId], or the blob
    lookup fails, the handler serves the default asset if there is one, and
    answers 404 otherwise; it never answers 500, and it answers 404 only
    when the default asset is missing. *)
Theorem image_falls_back_to_default :
  forall (fs_get : oid -> option grid_file) (static_default : option string)
         (id : string),
    (ObjectId id = None \/
     (exists file_id : oid, ObjectId id = Some file_id /\ fs_get file_id = None) ->
     get_image fs_get static_default id =
       match static_default with
       | Some data => StaticFile "default.png" data
       | None => Plain "Image not found" 404
       end) /\
    status (get_image fs_get static_default id) <> 500 /\
    (status (get_image fs_get static_default id) = 404 -> static_default = None).
Proof.
  intros fs_get sd id. split; [|split].
  - intros [H | (file_id & H & Hf)]; unfold get_image, get_image_try; rewrite H;
      [|rewrite Hf]; reflexivity.
  - unfold get_image.
    destruct (get_image_try fs_get id) as [r|] eqn:T.
    + rewrite (get_image_try_status _ _ _ T); discriminate.
    + destruct sd; simpl; discriminate.
  - unfold get_image.
    destruct (get_image_try fs_get id) as [r|] eqn:T.
    + rewrite (get_image_try_status _ _ _ T); discriminate.
    + destruct sd; simpl; [discriminate | reflexivity].
Qed.

Lemma image_falls_back_to_default_witness :
  get_image (fun _ => None) (Some "PNG") "not-an-object-id" = StaticFile "default.png" "PNG" /\
  get_image (fun _ => None) None "0123456789abcdef01234567" = Plain "Image not found" 404.
Proof.
  split.
  - apply (proj1 (image_falls_back_to_default (fun _ => None) (Some "PNG")
                    "not-an-object-id")).
    left; reflexivity.
  - apply (proj1 (image_falls_back_to_default (fun _ => None) None
                    "0123456789abcdef01234567")).
    right; exists "0123456789abcdef01234567"; split; reflexivity.
Defined.

(** ** C4: appending a comment *)

Lemma update_one_unmatched (coll : collection) (_id : oid) (c : comment) :
  (forall w : wine, In w coll -> wine_id w <> _id) ->
  update_one coll _id c = (coll, 0).
Proof.
  induction coll as [|w ws IH]; intros H; [reflexivity|].
  cbn [update_one].
  destruct (String.eqb_spec (wine_id w) _id) as [E|_].
  - exfalso; exact (H w (or_introl eq_refl) E).
  - rewrite IH by (intros w' Hw'; apply H; right; exact Hw'). reflexivity.
Qed.

Lemma update_one_matched (coll : collection) (_id : oid) (c : comment) :
  forall (coll' : collection) (n : nat),
    update_one coll _id c = (coll', n) ->
    n <> 0 ->
    exists (pre : list wine) (w : wine) (post : list wine),
      coll = pre ++ w :: post /\
      wine_id w = _id /\
      (forall w' : wine, In w' pre -> wine_id w' <> _id) /\
      coll' = pre ++ push_comment c w :: post.
Proof.
  induction coll as [|w ws IH]; intros coll' n H Hn; cbn [update_one] in H.
  - injection H as <- <-; congruence.
  - destruct (String.eqb_spec (wine_id w) _id) as [E|NE].
    + injection H as <- <-.
      exists [], w, ws; repeat split; auto.
    + destruct (update_one ws _id c) as [ws' m] eqn:U.
      injection H as <- <-.
      destruct (IH ws' m eq_refl Hn) as (pre & x & post & -> & Hx & Hpre & ->).
      exists (w :: pre), x, post; repeat split; auto.
      intros w' [<- | Hw']; auto.
Qed.

Lemma or_else_anonymous (x : option string) :
  Py.or_else x "" = "" /\ Py.or_else x "anonymous" = "anonymous" \/
  Py.or_else x "" <> "" /\ Py.or_else x "anonymous" = Py.or_else x "".
Proof.
  destruct x as [[|c s]|]; simpl; [left | right | left]; split; congruence.
Qed.

Lemma update_one_first (pre post : list wine) (w : wine) (_id : oid) (c : comment) :
  (forall w' : wine, In w' pre -> wine_id w' <> _id) ->
  wine_id w = _id ->
  update_one (pre ++ w :: post) _id c = (pre ++ push_comment c w :: post, 1).
Proof.
  intros Hpre Hw.
  induction pre as [|x pre IH]; cbn [app update_one].
  - apply String.eqb_eq in Hw. rewrite Hw. reflexivity.
  - assert (E : (wine_id x =? _id)%string = false)
      by (apply String.eqb_neq, Hpre; left; reflexivity).
    rewrite E, IH by (intros w' Hw'; apply Hpre; right; exact Hw'). reflexivity.
Qed.

(** The author stored with a comment, in terms of the submitted field. *)
Lemma stored_author (x : option string) :
  (if Py.truthy (Py.take 120 (Py.strip (Py.or_else x "anonymous")))
   then Py.take 120 (Py.strip (Py.or_else x "anonymous"))
   else "anonymous")
  = (if Py.truthy (Py.strip (Py.or_else x ""))
     then Py.take 120 (Py.strip (Py.or_else x ""))
     else "anonymous").
Proof.
  destruct (or_else_anonymous x) as [[E1 E2] | [N1 E2]]; rewrite E2.
  - rewrite E1. reflexivity.
  - destruct (Py.strip (Py.or_else x "")) as [|ch s] eqn:S; reflexivity.
Qed.

(** C4.  Appending a comment: when the text is empty after trimming the
    answer is 400 and the database is unchanged; when the text is not
    empty, the identifier is well formed, the update goes through and no
    record has that identifier, the answer is 404 (and the database is
    unchanged); when the handler redirects, the first record of that
    identifier has received one comment whose text is the trimmed text cut
    to 2000 characters and whose author is the trimmed author cut to 120
    characters, or [anonymous] when the trimmed author is empty; and the
    handler does succeed: with a non-empty text, a well formed identifier
    carried by a record and an update that goes through, it redirects to
    the detail page and the first record of that identifier ends with
    exactly that comment, the rest of the database unchanged. *)
Theorem add_comment_validates_and_truncates :
  forall (db : database) (new_id : oid) (now : Z) (id : string) (form : params),
    (Py.strip (Py.or_else (get "text" form) "") = "" ->
       add_comment db new_id now id form = (Plain "Comment text is required" 400, db)) /\
    (Py.strip (Py.or_else (get "text" form) "") <> "" ->
     forall _id : oid,
       ObjectId id = Some _id ->
       db_fault db = None ->
       (forall w : wine, In w (db_wines db) -> wine_id w <> _id) ->
       add_comment db new_id now id form = (Plain "Wine not found" 404, db)) /\
    (forall (location : string) (db' : database),
       add_comment db new_id now id form = (Redirect location, db') ->
       exists (_id : oid) (pre : list wine) (w : wine) (post : list wine) (c : comment),
         ObjectId id = Some _id /\
         db_wines db = pre ++ w :: post /\
         wine_id w = _id /\
         (forall w' : wine, In w' pre -> wine_id w' <> _id) /\
         db_wines db' = pre ++ push_comment c w :: post /\
         comment_text c = Py.take 2000 (Py.strip (Py.or_else (get "text" form) "")) /\
         String.length (comment_text c) <= 2000 /\
         comment_author c =
           (let author := Py.strip (Py.or_else (get "author" form) "") in
            if Py.truthy author then Py.take 120 author else "anonymous") /\
         String.length (comment_author c) <= 120) /\
    (Py.strip (Py.or_else (get "text" form) "") <> "" ->
     forall (_id : oid) (pre : list wine) (w : wine) (post : list wine),
       ObjectId id = Some _id ->
       db_fault db = None ->
       db_wines db = pre ++ w :: post ->
       wine_id w = _id ->
       (forall w' : wine, In w' pre -> wine_id w' <> _id) ->
       add_comment db new_id now id form =
         (Redirect (url_for_wine_details id),
          mkDb (pre ++
                mkWine (wine_id w) (title w) (description w) (winery w) (variety w)
                  (country w) (province w)
                  (comments w ++
                   [mkComment new_id
                      (Py.take 2000 (Py.strip (Py.or_else (get "text" form) "")))
                      (let author := Py.strip (Py.or_else (get "author" form) "") in
                       if Py.truthy author then Py.take 120 author else "anonymous")
                      now])
                :: post) None)).
Proof.
  intros db new_id now id form.
  set (text := Py.strip (Py.or_else (get "text" form) "")).
  split; [|split; [|split]].
  - intros E. unfold add_comment. fold text. rewrite E. reflexivity.
  - intros NE _id Hid Hfault Hnone.
    unfold add_comment. fold text.
    assert (Ht : Py.truthy (Py.take 2000 text) = true).
    { apply PyFacts.truthy_iff, PyFacts.take_nonempty, NE. }
    rewrite Ht, Hid, Hfault. cbn [negb].
    rewrite update_one_unmatched by exact Hnone. cbn [Nat.eqb].
    destruct db as [ws fault]; simpl in Hfault; subst fault; reflexivity.
  - intros location db' H.
    unfold add_comment in H. fold text in H.
    destruct (negb (Py.truthy (Py.take 2000 text))); [discriminate|].
    destruct (ObjectId id) as [_id|]; [|discriminate].
    destruct (db_fault db); [discriminate|].
    match type of H with
    | (let '(_, _) := update_one _ _ ?c in _) = _ => set (cm := c) in H
    end.
    destruct (update_one (db_wines db) _id cm) as [coll' n] eqn:U.
    destruct (Nat.eqb_spec n 0) as [|Hn]; [discriminate|].
    injection H as _ <-.
    destruct (update_one_matched _ _ _ _ _ U Hn) as (pre & w & post & Hc & Hw & Hpre & ->).
    exists _id, pre, w, post, cm.
    repeat split; auto.
    + apply PyFacts.take_length.
    + cbn [cm comment_author]. cbv zeta. apply stored_author.
    + cbn [cm comment_author].
      destruct (Py.truthy _).
      * apply PyFacts.take_length.
      * simpl; lia.
  - intros NE _id pre w post Hid Hfault Hc Hw Hpre.
    unfold add_comment. fold text.
    assert (Ht : Py.truthy (Py.take 2000 text) = true).
    { apply PyFacts.truthy_iff, PyFacts.take_nonempty, NE. }
    rewrite Ht, Hid, Hfault, Hc. cbn [negb].
    rewrite (update_one_first pre post w _id _ Hpre Hw). cbn [Nat.eqb].
    rewrite stored_author. reflexivity.
Qed.

Lemma add_comment_validates_and_truncates_witness :
  let w := mkWine "0123456789abcdef01234567" (VStr "Barolo") VNull VNull VNull
             VNull VNull [] in
  let db := mkDb [w] None in
  let long := string_of_list_ascii (List.repeat "a"%char 2005) in
  add_comment db "00000000000000000000000a" 0 "0123456789abcdef01234567"
    [("text", "   ")] = (Plain "Comment text is required" 400, db) /\
  add_comment db "00000000000000000000000a" 0 "ffffffffffffffffffffffff"
    [("text", "fine")] = (Plain "Wine not found" 404, db) /\
  add_comment db "00000000000000000000000a" 0 "0123456789abcdef01234567"
    [("text", String " " long); ("author", "  ")]
  = (Redirect "/wine/0123456789abcdef01234567",
     mkDb [mkWine "0123456789abcdef01234567" (VStr "Barolo") VNull VNull VNull
             VNull VNull
             [mkComment "00000000000000000000000a"
                (string_of_list_ascii (List.repeat "a"%char 2000)) "anonymous" 0]]
          None).
Proof.
  intros w db long. split; [|split].
  - apply (proj1 (add_comment_validates_and_truncates db "00000000000000000000000a" 0
                    "0123456789abcdef01234567" [("text", "   ")])).
    reflexivity.
  - apply (proj1 (proj2 (add_comment_validates_and_truncates db
                           "00000000000000000000000a" 0
                           "ffffffffffffffffffffffff" [("text", "fine")])))
      with (_id := "ffffffffffffffffffffffff").
    + vm_compute; discriminate.
    + reflexivity.
    + reflexivity.
    + intros w' [<- | []]; vm_compute; discriminate.
  - rewrite (proj2 (proj2 (proj2 (add_comment_validates_and_truncates db
                                    "00000000000000000000000a" 0
                                    "0123456789abcdef01234567"
                                    [("text", String " " long); ("author", "  ")]))))
      with (_id := "0123456789abcdef01234567") (pre := []) (w := w) (post := []).
    + vm_compute; reflexivity.
    + vm_compute; discriminate.
    + reflexivity.
    + reflexivity.
    + reflexivity.
    + reflexivity.
    + intros w' [].
Defined.

(* ================================================================== *)
(** * Properties of the facet lists and of the statistics *)
(* ================================================================== *)

(** ** C8: the facet lists *)

Lemma string_leb_trans (s t u : string) :
  String.leb s t = true -> String.leb t u = true -> String.leb s u = true.
Proof.
  unfold String.leb.
  revert t u; induction s as [|a s IH]; intros [|b t] [|c u]; simpl; try congruence.
  unfold Ascii.compare.
  destruct (N.compare_spec (N_of_ascii a) (N_of_ascii b)) as [E1|L1|G1];
    destruct (N.compare_spec (N_of_ascii b) (N_of_ascii c)) as [E2|L2|G2];
    try congruence;
    destruct (N.compare_spec (N_of_ascii a) (N_of_ascii c)) as [E3|L3|G3];
    try congruence; try lia.
  apply IH.
Qed.

Lemma key_le_trans : Relations_1.Transitive (fun a b => is_true (KeyStrOrder.leb a b)).
Proof.
  intros a b c; unfold is_true, KeyStrOrder.leb; apply string_leb_trans.
Qed.

Lemma truthy_value (v : value) :
  truthy v = true <-> exists s : string, v = VStr s /\ s <> "".
Proof.
  destruct v as [|s]; simpl.
  - split; [discriminate | intros (s & H & _); discriminate].
  - rewrite PyFacts.truthy_iff. split.
    + intros H; exists s; auto.
    + intros (s' & E & H); injection E as ->; exact H.
Qed.

Lemma firstn_incl {A : Type} (n : nat) (l : list A) (x : A) :
  In x (firstn n l) -> In x l.
Proof.
  intros H. rewrite <- (firstn_skipn n l). apply in_or_app; left; exact H.
Qed.

Lemma StronglySorted_firstn {A : Type} (R : A -> A -> Prop) (n : nat) (l : list A) :
  StronglySorted R l -> StronglySorted R (firstn n l).
Proof.
  intros H; revert n; induction H as [|a l Hl IH Ha]; intros [|n]; simpl;
    try constructor; auto.
  rewrite Forall_forall in *. intros x Hx. apply Ha. eapply firstn_incl; eauto.
Qed.

Lemma NoDup_firstn_of {A : Type} (n : nat) (l : list A) :
  NoDup l -> NoDup (firstn n l).
Proof.
  intros H. rewrite <- (firstn_skipn n l) in H.
  eapply NoDup_app_remove_r; exact H.
Qed.

(** The list computed for one attribute is its facet list. *)
Lemma sorted_facet_is_facet_list (field : string) (sel : wine -> bool)
    (coll : collection) (cap : nat) :
  facet_list field sel coll cap (sorted_facet (distinct field sel coll) cap).
Proof.
  unfold sorted_facet.
  set (vals := List.filter truthy (distinct field sel coll)).
  set (full := KeyStrSort.sort vals).
  assert (Hperm : Permutation vals full) by apply KeyStrSort.Permuted_sort.
  assert (Hsorted : StronglySorted key_le full).
  { apply KeyStrSort.StronglySorted_sort, key_le_trans. }
  assert (Hnodup : NoDup full).
  { eapply Permutation_NoDup; [exact Hperm|].
    apply NoDup_filter, NoDup_nodup. }
  assert (Hin : forall v, In v full <-> facet_value field sel coll v).
  { intros v. unfold facet_value.
    rewrite <- truthy_value.
    split.
    - intros H. eapply Permutation_in in H; [|apply Permutation_sym; exact Hperm].
      apply filter_In in H. destruct H as [H Ht].
      split; [exact Ht|].
      apply nodup_In, in_map_iff in H. destruct H as (w & Hw & H).
      apply filter_In in H. destruct H as [H Hs]. exists w; auto.
    - intros [Ht (w & Hw & Hs & Hv)].
      eapply Permutation_in; [exact Hperm|].
      apply filter_In. split; [|exact Ht].
      apply nodup_In, in_map_iff. exists w; split; [exact Hv|].
      apply filter_In; auto. }
  unfold facet_list. repeat split.
  - apply StronglySorted_firstn, Hsorted.
  - apply NoDup_firstn_of, Hnodup.
  - apply firstn_le_length.
  - apply Hin; eapply firstn_incl; eauto.
  - apply Hin; eapply firstn_incl; eauto.
  - exists full. repeat split; auto; apply Hin; auto.
Qed.

(** C8.  The country list and the province list of [get_filter_lists] are
    the facet lists of those attributes over the whole collection capped at
    250 items, and the list of [/provinces] is the facet list of the
    province over the documents of the given country (over all documents
    when no country is given), capped at 300 items: each is sorted, free of
    duplicates and made of non-empty values. *)
Theorem facet_lists_sorted_distinct_capped :
  forall (coll : collection) (a : params),
    facet_list "country" (fun _ => true) coll 250
      (fst (get_filter_lists coll default_max_items)) /\
    facet_list "province" (fun _ => true) coll 250
      (snd (get_filter_lists coll default_max_items)) /\
    facet_list "province"
      (fun w => if Py.truthy (Py.strip (Py.or_else (get "country" a) ""))
                then value_eqb (country w)
                       (VStr (Py.strip (Py.or_else (get "country" a) "")))
                else true)
      coll 300 (provinces_for_country coll a).
Proof.
  intros coll a. split; [|split].
  - apply sorted_facet_is_facet_list.
  - apply sorted_facet_is_facet_list.
  - unfold provinces_for_country.
    destruct (Py.truthy (Py.strip (Py.or_else (get "country" a) ""))) eqn:E.
    + apply (sorted_facet_is_facet_list "province"
               (fun w => value_eqb (get_field "country" w)
                           (VStr (Py.strip (Py.or_else (get "country" a) ""))))).
    + apply sorted_facet_is_facet_list.
Qed.

Example facet_lists_example :
  let w c p := mkWine "000000000000000000000001" VNull VNull VNull VNull c p [] in
  let coll := [w (VStr "US") (VStr "Oregon"); w (VStr "Italy") (VStr "Tuscany");
               w (VStr "US") (VStr "California"); w VNull (VStr "");
               w (VStr "Italy") (VStr "Tuscany")] in
  get_filter_lists coll default_max_items
    = ([VStr "Italy"; VStr "US"], [VStr "California"; VStr "Oregon"; VStr "Tuscany"]) /\
  provinces_for_country coll [("country", "US")] = [VStr "California"; VStr "Oregon"].
Proof. split; vm_compute; reflexivity. Qed.

(** ** C2: the top variety *)

Lemma group_add_keys (v k : value) (n : nat) (gs : list (value * nat)) :
  In (k, n) (group_add v gs) -> k = v \/ exists m : nat, In (k, m) gs.
Proof.
  induction gs as [|[g c] gs IH]; simpl.
  - intros [H|[]]; injection H as <- <-; auto.
  - destruct (value_eqb g v).
    + intros [H|H]; [injection H as <- <-|]; right; eauto.
    + intros [H|H]; [injection H as <- <-; right; eauto|].
      destruct (IH H) as [->|(m & Hm)]; eauto.
Qed.

Lemma group_count_keys (vs : list value) :
  forall (gs : list (value * nat)) (k : value) (n : nat),
    In (k, n) (fold_left (fun gs v => group_add v gs) vs gs) ->
    In k vs \/ exists m : nat, In (k, m) gs.
Proof.
  induction vs as [|v vs IH]; intros gs k n; simpl; [eauto|].
  intros H. destruct (IH _ _ _ H) as [Hin | (m & Hm)]; [auto|].
  destruct (group_add_keys _ _ _ _ Hm) as [->|?]; auto.
Qed.

Lemma insert_desc_in (g x : value * nat) (gs : list (value * nat)) :
  In x (insert_desc g gs) -> x = g \/ In x gs.
Proof.
  induction gs as [|h gs IH]; simpl; [intuition|].
  destruct (snd h <? snd g); simpl; intuition.
Qed.

Lemma sort_desc_in (x : value * nat) (gs : list (value * nat)) :
  In x (sort_desc gs) -> In x gs.
Proof.
  induction gs as [|g gs IH]; simpl; [auto|].
  intros H. destruct (insert_desc_in _ _ _ H); auto.
Qed.

(** The condition of the [$match] stage, as the dict display evaluates:
    the second [$ne] replaces the first. *)
Lemma variety_condition_value : variety_condition = [("$ne", VStr "")].
Proof. reflexivity. Qed.

(** What the stage does exclude: a record whose variety is the empty
    string is in no group. *)
Lemma empty_variety_never_counts (coll : collection) (country_name : string) (n : nat) :
  ~ In (VStr "", n) (varietyCounts coll country_name).
Proof.
  unfold varietyCounts. intros H.
  apply firstn_incl, sort_desc_in in H.
  apply group_count_keys in H. destruct H as [H | (m & [])].
  apply in_map_iff in H. destruct H as (w & Hv & Hw).
  apply filter_In in Hw. destruct Hw as [_ Hc].
  rewrite Hv in Hc. discriminate.
Qed.

(** C2, at the failing input.  Over three Italian records, two without a
    variety and one Merlot, the [null] group is the largest one: the branch
    returns it, and [topVariety] is [null], whereas the Merlot record alone
    gives Merlot. *)
Theorem null_variety_wins_top_variety :
  let w := fun v : value =>
             mkWine "000000000000000000000001" VNull VNull VNull v (VStr "Italy") VNull [] in
  varietyCounts [w VNull; w (VStr "Merlot"); w VNull] "Italy" = [(VNull, 2)] /\
  get_country_stats_topVariety [w VNull; w (VStr "Merlot"); w VNull] "Italy" = Some VNull /\
  get_country_stats_topVariety [w (VStr "Merlot")] "Italy" = Some (VStr "Merlot").
Proof. repeat split; vm_compute; reflexivity. Qed.

(* ================================================================== *)
(** * Further properties of the search handler *)
(* ================================================================== *)

Import Routes SpecMore.

Lemma value_eqb_eq (a b : value) : value_eqb a b = true <-> a = b.
Proof.
  destruct a as [|s], b as [|t]; simpl; try (split; congruence).
  rewrite String.eqb_eq. split; congruence.
Qed.

Lemma value_eqb_refl (a : value) : value_eqb a a = true.
Proof. apply value_eqb_eq; reflexivity. Qed.

Lemma value_eqb_sym (a b : value) : value_eqb a b = value_eqb b a.
Proof.
  destruct (value_eqb a b) eqn:E1, (value_eqb b a) eqn:E2; try reflexivity.
  - apply value_eqb_eq in E1; subst; rewrite value_eqb_refl in E2; discriminate.
  - apply value_eqb_eq in E2; subst; rewrite value_eqb_refl in E1; discriminate.
Qed.

(** The handler reads its request only through the eleven inputs. *)
Lemma search_depends_on_args (centroid_for : centroid_oracle) (a b : params) :
  arg_q a = arg_q b -> arg_field a = arg_field b ->
  arg_use_text a = arg_use_text b ->
  arg_country a = arg_country b -> arg_province a = arg_province b ->
  arg_geo_mode a = arg_geo_mode b ->
  arg_lat a = arg_lat b -> arg_lon a = arg_lon b ->
  arg_radius a = arg_radius b -> arg_sort_by a = arg_sort_by b ->
  search centroid_for a = search centroid_for b.
Proof.
  intros H1 H2 H3 H4 H5 H6 H7 H8 H9 H10.
  unfold search, search_filters, arg_max_m.
  rewrite H1, H2, H3, H4, H5, H6, H7, H8, H9, H10. reflexivity.
Qed.

(** The geospatial block adds at most one predicate, at the end, and sets
    the center exactly when it does. *)
Lemma geo_logic_shape (centroid_for : centroid_oracle) (bs : list filter)
    (mode : string) (m : Py.float) (c p lat lon : string) :
  fst (geo_logic centroid_for bs mode m c p lat lon)
  = bs ++ match snd (geo_logic centroid_for bs mode m c p lat lon) with
          | Some center => [centerSphere center m]
          | None => []
          end.
Proof.
  destruct (geo_logic centroid_for bs mode m c p lat lon) as [fs center] eqn:G.
  cbn [fst snd]. unfold geo_logic in G.
  split_branches G; injection G as <- <-; now rewrite ?app_nil_r.
Qed.

(** X2.  A single-field regex search is the case-insensitive substring test on
    that field: for a non-empty query, text mode off and a field selector
    among title, description, variety and winery, the first conjunct of the
    query is a pattern on that field, which matches a record if and only if
    that attribute of the record is a string containing the query as a
    literal substring, up to letter case. *)
Theorem regex_single_field_is_substring_search :
  forall (centroid_for : centroid_oracle) (a : params),
    arg_q a <> "" ->
    arg_use_text a = false ->
    In (arg_field a) ["title"; "description"; "variety"; "winery"] ->
    exists (f : filter) (rest : list filter) (center : option (Py.float * Py.float)),
      search_filters centroid_for a = Some (f :: rest, center) /\
      search centroid_for a
        = Some (mkPlan (FAnd (f :: rest)) projection (sort_order (arg_sort_by a)) 50) /\
      forall ti gi (w : wine),
        matches ti gi f w = true <->
        field_contains (arg_q a) (get_field (arg_field a) w).
Proof.
  intros cf a Hq Htext Hfield.
  set (f := FRegex (arg_field a) (Re.mkPattern (Re.lits (arg_q a)) true)).
  assert (Ht : text_logic [] (arg_q a) (arg_field a) (arg_use_text a) = Some [f]).
  { rewrite Htext, SearchFacts.text_logic_regex by exact Hq. cbv zeta.
    assert (E1 : (arg_field a =? "all")%string = false).
    { apply String.eqb_neq. intros E. rewrite E in Hfield.
      simpl in Hfield. intuition discriminate. }
    assert (E2 : existsb (String.eqb (arg_field a))
                   ["title"; "description"; "variety"; "winery"] = true).
    { apply existsb_exists. exists (arg_field a). split; [exact Hfield|].
      apply String.eqb_refl. }
    rewrite E1, E2. reflexivity. }
  assert (Hs : search_filters cf a =
               Some (geo_logic cf (facet_logic [f] (arg_country a) (arg_province a))
                       (arg_geo_mode a) (arg_max_m a) (arg_country a)
                       (arg_province a) (arg_lat a) (arg_lon a))).
  { unfold search_filters; rewrite Ht; reflexivity. }
  rewrite SearchFacts.geo_logic_app, SearchFacts.facet_logic_app in Hs.
  rewrite <- app_assoc in Hs. cbn [app] in Hs.
  eexists f, _, _. split; [exact Hs|]. split.
  - unfold search; rewrite Hs; reflexivity.
  - intros ti gi w. apply regex_filter_matches.
Qed.

Lemma regex_single_field_is_substring_search_witness :
  exists (f : filter),
    search (fun _ _ => None) [("q", "Pinot (old)"); ("field", "variety")]
      = Some (mkPlan (FAnd [f]) projection [("points", DESCENDING)] 50) /\
    forall ti gi (w : wine),
      matches ti gi f w = true <-> field_contains "Pinot (old)" (variety w).
Proof.
  destruct (regex_single_field_is_substring_search (fun _ _ => None)
              [("q", "Pinot (old)"); ("field", "variety")])
    as (f & rest & center & Hs & Hp & Hm).
  - vm_compute; discriminate.
  - reflexivity.
  - right; right; left; reflexivity.
  - exists f. injection Hs as <- <- <-. split; [reflexivity | exact Hm].
Defined.

(** X3.  Text mode is on exactly when the parameter [text] is the string [1];
    then a non-empty query becomes one full-text predicate, the first
    conjunct of the query, and the field selector plays no part: the plan
    is the same whatever selector is submitted. *)
Theorem text_mode_ignores_field :
  forall (centroid_for : centroid_oracle) (a : params),
    (arg_use_text a = true <-> get "text" a = Some "1") /\
    (arg_q a <> "" ->
     arg_use_text a = true ->
     (exists (rest : list filter) (center : option (Py.float * Py.float)),
        search_filters centroid_for a = Some (FText (arg_q a) :: rest, center) /\
        search centroid_for a
          = Some (mkPlan (FAnd (FText (arg_q a) :: rest)) projection
                    (sort_order (arg_sort_by a)) 50)) /\
     forall v : string,
       search centroid_for (with_param "field" v a) = search centroid_for a).
Proof.
  intros cf a. split.
  - unfold arg_use_text. rewrite String.eqb_eq.
    destruct (get "text" a) as [[|c s]|]; simpl; split; congruence.
  - intros Hq Htext.
    assert (Ht : forall field, text_logic [] (arg_q a) field true
                               = Some [FText (arg_q a)]).
    { intros field. unfold text_logic.
      apply PyFacts.truthy_iff in Hq. rewrite Hq. reflexivity. }
    split.
    + assert (Hs : search_filters cf a =
                   Some (geo_logic cf
                           (facet_logic [FText (arg_q a)] (arg_country a) (arg_province a))
                           (arg_geo_mode a) (arg_max_m a) (arg_country a)
                           (arg_province a) (arg_lat a) (arg_lon a))).
      { unfold search_filters; rewrite Htext, Ht; reflexivity. }
      rewrite SearchFacts.geo_logic_app, SearchFacts.facet_logic_app in Hs.
      rewrite <- app_assoc in Hs. cbn [app] in Hs.
      eexists _, _. split; [exact Hs|].
      unfold search; rewrite Hs; reflexivity.
    + intros v. unfold search, search_filters.
      change (arg_q (with_param "field" v a)) with (arg_q a).
      change (arg_use_text (with_param "field" v a)) with (arg_use_text a).
      rewrite Htext, !Ht. reflexivity.
Qed.

Lemma text_mode_ignores_field_witness :
  search (fun _ _ => None) (with_param "field" "bogus" [("q", "oak"); ("text", "1")])
  = search (fun _ _ => None) [("q", "oak"); ("text", "1")].
Proof.
  apply (proj2 (text_mode_ignores_field (fun _ _ => None) [("q", "oak"); ("text", "1")])).
  - vm_compute; discriminate.
  - reflexivity.
Defined.

Lemma query_matches_forallb (ti : string -> wine -> bool)
    (gi : Py.float * Py.float -> Py.float -> wine -> bool)
    (fs : list filter) (w : wine) :
  matches ti gi (match fs with [] => match_all | _ => FAnd fs end) w
  = forallb (fun g => matches ti gi g w) fs.
Proof. destruct fs; reflexivity. Qed.

Lemma facet_filters_match (ti : string -> wine -> bool)
    (gi : Py.float * Py.float -> Py.float -> wine -> bool)
    (c p : string) (w : wine) :
  forallb (fun g => matches ti gi g w) (facet_logic [] c p) = true <->
  (c = "" \/ country w = VStr c) /\ (p = "" \/ province w = VStr p).
Proof.
  unfold facet_logic.
  destruct c as [|c0 c], p as [|p0 p]; cbn [Py.truthy app forallb matches].
  - intuition.
  - change (get_field "province" w) with (province w).
    rewrite andb_true_r, value_eqb_eq. intuition discriminate.
  - change (get_field "country" w) with (country w).
    rewrite andb_true_r, value_eqb_eq. intuition discriminate.
  - change (get_field "province" w) with (province w).
    change (get_field "country" w) with (country w).
    rewrite andb_true_r, andb_true_iff, !value_eqb_eq. intuition discriminate.
Qed.

(** X4.  Without query text the query is the conjunction of the facets and of
    the radius test: a record matches if and only if its country is the
    requested one (when one is requested), its province is the requested
    one (when one is requested) and, when a center was resolved, it lies
    within the radius of the center.  With neither facet nor center every
    record matches. *)
Theorem query_without_text_semantics :
  forall (centroid_for : centroid_oracle) (a : params)
         (fs : list filter) (center : option (Py.float * Py.float)),
    arg_q a = "" ->
    search_filters centroid_for a = Some (fs, center) ->
    exists plan : find_plan,
      search centroid_for a = Some plan /\
      forall ti gi (w : wine),
        matches ti gi (plan_query plan) w = true <->
        (arg_country a = "" \/ country w = VStr (arg_country a)) /\
        (arg_province a = "" \/ province w = VStr (arg_province a)) /\
        (forall c : Py.float * Py.float,
            center = Some c ->
            gi c (Py.fdiv (arg_max_m a) earth_radius) w = true).
Proof.
  intros cf a fs center Hq Hs.
  assert (Hb : filters_before_geo a
               = Some (facet_logic [] (arg_country a) (arg_province a))).
  { unfold filters_before_geo, text_logic. rewrite Hq. reflexivity. }
  pose proof Hs as Hs'.
  rewrite (search_filters_geo cf a _ Hb) in Hs'.
  injection Hs' as Hg.
  pose proof (geo_logic_shape cf (facet_logic [] (arg_country a) (arg_province a))
                (arg_geo_mode a) (arg_max_m a) (arg_country a) (arg_province a)
                (arg_lat a) (arg_lon a)) as Hshape.
  rewrite Hg in Hshape. cbn [fst snd] in Hshape.
  eexists. split; [unfold search; rewrite Hs; reflexivity|].
  intros ti gi w. cbn [plan_query].
  rewrite query_matches_forallb, Hshape, forallb_app, andb_true_iff,
    facet_filters_match.
  destruct center as [c|]; cbn [forallb matches centerSphere].
  - rewrite andb_true_r. split.
    + intros [[H1 H2] H3]. repeat split; auto. intros c' E; injection E as <-; exact H3.
    + intros (H1 & H2 & H3). repeat split; auto.
  - split.
    + intros [[H1 H2] _]. repeat split; auto. discriminate.
    + intros (H1 & H2 & _). repeat split; auto.
Qed.

Lemma query_without_text_semantics_witness :
  exists plan : find_plan,
    search (fun _ _ => None) [("country", "Italy"); ("province", "Tuscany")] = Some plan /\
    forall ti gi (w : wine),
      matches ti gi (plan_query plan) w = true <->
      country w = VStr "Italy" /\ province w = VStr "Tuscany".
Proof.
  destruct (query_without_text_semantics (fun _ _ => None)
              [("country", "Italy"); ("province", "Tuscany")]
              [FEq "country" "Italy"; FEq "province" "Tuscany"] None)
    as (plan & Hp & Hm).
  - reflexivity.
  - reflexivity.
  - exists plan. split; [exact Hp|].
    intros ti gi w. rewrite Hm.
    change (arg_country [("country", "Italy"); ("province", "Tuscany")]) with "Italy".
    change (arg_province [("country", "Italy"); ("province", "Tuscany")]) with "Tuscany".
    split.
    + intros ([H1|H1] & [H2|H2] & _); try discriminate. auto.
    + intros [H1 H2]. repeat split; auto. discriminate.
Defined.

(** X5.  The geo predicate of a request.  The filters are those built before the
    geospatial block followed by one radius predicate around the center
    when a center was resolved, and by nothing otherwise.  A center is
    resolved only with a positive radius, and either in mode [by_area] with
    a facet set and a centroid found for it, or in mode [by_coords] with
    both coordinates parsed, the center being (longitude, latitude).  Any
    other geo mode resolves no center. *)
Theorem geo_predicate_characterization :
  forall (centroid_for : centroid_oracle) (a : params)
         (fs : list filter) (center : option (Py.float * Py.float)),
    search_filters centroid_for a = Some (fs, center) ->
    (exists bs : list filter,
        filters_before_geo a = Some bs /\
        fs = bs ++ match center with
                   | Some c => [centerSphere c (arg_max_m a)]
                   | None => []
                   end) /\
    (forall c : Py.float * Py.float,
        center = Some c ->
        Py.fltb Py.fzero (arg_max_m a) = true /\
        ((arg_geo_mode a = "by_area" /\
          (arg_country a <> "" \/ arg_province a <> "") /\
          centroid_for (or_None (arg_country a)) (or_None (arg_province a)) = Some c) \/
         (arg_geo_mode a = "by_coords" /\
          exists lat lon : Py.float,
            Py.float_of_str (arg_lat a) = Some lat /\
            Py.float_of_str (arg_lon a) = Some lon /\
            c = (lon, lat)))) /\
    (arg_geo_mode a <> "by_area" -> arg_geo_mode a <> "by_coords" -> center = None).
Proof.
  intros cf a fs center Hs.
  destruct (filters_before_geo_total a) as [bs Hbs].
  rewrite (search_filters_geo cf a bs Hbs) in Hs.
  injection Hs as Hg.
  pose proof (geo_logic_shape cf bs (arg_geo_mode a) (arg_max_m a) (arg_country a)
                (arg_province a) (arg_lat a) (arg_lon a)) as Hshape.
  rewrite Hg in Hshape. cbn [fst snd] in Hshape.
  split; [exists bs; auto|].
  unfold geo_logic in Hg.
  split.
  - intros c ->.
    split_branches Hg; injection Hg as _ Hc; try discriminate; subst c;
      repeat match goal with
             | H : _ && _ = true |- _ => apply andb_prop in H; destruct H
             end;
      (split; [assumption|]).
    + left.
      match goal with H : (_ =? _)%string = true |- _ => apply String.eqb_eq in H end.
      match goal with H : _ || _ = true |- _ => apply orb_true_iff in H end.
      repeat split; auto.
      match goal with H : _ \/ _ |- _ =>
        destruct H as [H|H]; apply PyFacts.truthy_iff in H; auto end.
    + right.
      match goal with H : (_ =? "by_coords")%string = true |- _ =>
        apply String.eqb_eq in H end.
      split; [assumption|]. eexists _, _. repeat split; reflexivity.
  - intros N1 N2.
    apply String.eqb_neq in N1, N2. rewrite N1, N2 in Hg.
    cbn [andb] in Hg. injection Hg as _ <-. reflexivity.
Qed.

Lemma geo_predicate_characterization_witness :
  Py.fltb Py.fzero (arg_max_m [("geo_mode", "by_coords"); ("lat", "45"); ("lon", "7");
                               ("radius", "10")]) = true.
Proof.
  pose (a := [("geo_mode", "by_coords"); ("lat", "45"); ("lon", "7"); ("radius", "10")]).
  pose (c := (Py.of_decimal false 7 0, Py.of_decimal false 45 0)).
  destruct (geo_predicate_characterization (fun _ _ => None) a
              [centerSphere c (arg_max_m a)] (Some c)) as (_ & H & _).
  - vm_compute; reflexivity.
  - destruct (H c eq_refl) as [Hpos _]. exact Hpos.
Defined.

(** ** Trimming of the parameters *)

Lemma rstrip_idempotent (s : string) : Py.rstrip (Py.rstrip s) = Py.rstrip s.
Proof.
  induction s as [|c s IH]; [reflexivity|].
  cbn [Py.rstrip].
  destruct (Py.rstrip s) as [|d r] eqn:E.
  - destruct (Py.isspace c) eqn:Hc; [reflexivity|].
    cbn [Py.rstrip]. rewrite Hc. reflexivity.
  - cbn [Py.rstrip]. cbn [Py.rstrip] in IH.
    destruct (match Py.rstrip r with
              | EmptyString => if Py.isspace d then EmptyString else String d EmptyString
              | String a0 s0 => String d (String a0 s0)
              end) eqn:E2; [discriminate IH|].
    rewrite IH. reflexivity.
Qed.

Lemma lstrip_idempotent (s : string) : Py.lstrip (Py.lstrip s) = Py.lstrip s.
Proof.
  induction s as [|c s IH]; [reflexivity|].
  cbn [Py.lstrip]. destruct (Py.isspace c) eqn:Hc; [exact IH|].
  cbn [Py.lstrip]. rewrite Hc. reflexivity.
Qed.

Lemma lstrip_rstrip (s : string) : Py.lstrip (Py.rstrip s) = Py.rstrip (Py.lstrip s).
Proof.
  induction s as [|c s IH]; [reflexivity|].
  cbn [Py.lstrip]. destruct (Py.isspace c) eqn:Hc.
  - rewrite <- IH. cbn [Py.rstrip].
    destruct (Py.rstrip s) as [|d r]; rewrite ?Hc; cbn [Py.lstrip]; rewrite ?Hc;
      reflexivity.
  - cbn [Py.rstrip].
    destruct (Py.rstrip s) as [|d r]; rewrite ?Hc; cbn [Py.lstrip]; rewrite Hc;
      reflexivity.
Qed.

Lemma strip_idempotent (s : string) : Py.strip (Py.strip s) = Py.strip s.
Proof.
  unfold Py.strip.
  rewrite (lstrip_rstrip (Py.lstrip s)), lstrip_idempotent, rstrip_idempotent.
  reflexivity.
Qed.

Lemma strip_or_else_trimmed (v d : string) :
  Py.strip v <> "" ->
  Py.strip (Py.or_else (Some (Py.strip v)) d) = Py.strip (Py.or_else (Some v) d).
Proof.
  intros H. unfold Py.or_else.
  apply PyFacts.truthy_iff in H. rewrite H.
  destruct v as [|c v]; [discriminate H|].
  cbn [Py.truthy]. apply strip_idempotent.
Qed.

(** X6.  Surrounding white space in a trimmed parameter is immaterial: for each
    of q, field, country, province, geo_mode, lat, lon, radius and sort_by,
    a value whose trimmed form is not empty gives the same plan as its
    trimmed form. *)
Theorem surrounding_whitespace_is_immaterial :
  forall (centroid_for : centroid_oracle) (a : params) (k v : string),
    In k trimmed_keys ->
    Py.strip v <> "" ->
    search centroid_for (with_param k v a)
    = search centroid_for (with_param k (Py.strip v) a).
Proof.
  intros cf a k v Hk Hv.
  unfold trimmed_keys in Hk. cbn [In] in Hk.
  repeat (destruct Hk as [<- | Hk]);
    try (apply search_depends_on_args;
         solve [ reflexivity
               | unfold arg_q, arg_field, arg_country, arg_province, arg_geo_mode,
                   arg_lat, arg_lon, arg_radius, arg_sort_by, with_param;
                 cbn [get String.eqb Ascii.eqb Bool.eqb];
                 symmetry; apply strip_or_else_trimmed; exact Hv ]).
  destruct Hk.
Qed.

Lemma surrounding_whitespace_is_immaterial_witness :
  search (fun _ _ => None) (with_param "q" "  merlot " [])
  = search (fun _ _ => None) (with_param "q" (Py.strip "  merlot ") []).
Proof.
  apply (surrounding_whitespace_is_immaterial (fun _ _ => None) [] "q" "  merlot ").
  - left; reflexivity.
  - vm_compute; discriminate.
Defined.

(** X7.  A value of white space only is not replaced by the default of its
    parameter: the default is substituted before the trimming, so the
    effective value is the empty string.  Thus a blank field selector is
    not [all] and drops the text clause of a regex search, a blank radius
    converts to zero, and a blank geo mode resolves no center. *)
Theorem whitespace_value_is_not_defaulted :
  forall (centroid_for : centroid_oracle) (a : params) (v : string),
    v <> "" ->
    Py.strip v = "" ->
    arg_field (with_param "field" v a) = "" /\
    arg_geo_mode (with_param "geo_mode" v a) = "" /\
    arg_radius (with_param "radius" v a) = "" /\
    arg_sort_by (with_param "sort_by" v a) = "" /\
    (arg_q a <> "" -> arg_use_text a = false ->
     text_logic [] (arg_q (with_param "field" v a))
       (arg_field (with_param "field" v a))
       (arg_use_text (with_param "field" v a)) = Some []) /\
    arg_max_m (with_param "radius" v a) = Py.fzero /\
    (exists fs : list filter,
        search_filters centroid_for (with_param "geo_mode" v a) = Some (fs, None)).
Proof.
  intros cf a v Hne Hs.
  assert (E : forall d, Py.strip (Py.or_else (Some v) d) = "").
  { intros d. destruct v as [|c v]; [congruence | exact Hs]. }
  assert (Hf : arg_field (with_param "field" v a) = "") by apply E.
  assert (Hg : arg_geo_mode (with_param "geo_mode" v a) = "") by apply E.
  assert (Hr : arg_radius (with_param "radius" v a) = "") by apply E.
  repeat split; try apply E.
  - intros Hq Ht. rewrite Hf.
    change (arg_q (with_param "field" v a)) with (arg_q a).
    change (arg_use_text (with_param "field" v a)) with (arg_use_text a).
    rewrite Ht, SearchFacts.text_logic_regex by exact Hq. reflexivity.
  - unfold arg_max_m. rewrite Hr. reflexivity.
  - destruct (filters_before_geo_total (with_param "geo_mode" v a)) as [bs Hbs].
    exists bs. rewrite (search_filters_geo cf _ bs Hbs), Hg. reflexivity.
Qed.

Lemma whitespace_value_is_not_defaulted_witness :
  arg_field (with_param "field" "  " [("q", "oak")]) = "" /\
  text_logic [] "oak" "" false = Some [].
Proof.
  destruct (whitespace_value_is_not_defaulted (fun _ _ => None) [("q", "oak")] "  ")
    as (H1 & _ & _ & _ & H5 & _).
  - discriminate.
  - reflexivity.
  - split; [exact H1|]. apply H5; [vm_compute; discriminate | reflexivity].
Defined.

(* ================================================================== *)
(** * Further properties of the statistics *)
(* ================================================================== *)

Lemma eval_variety_condition (v : value) :
  eval_operators variety_condition v = negb (value_eqb v (VStr "")).
Proof.
  destruct v as [|s]; [reflexivity|].
  change (eval_operators variety_condition (VStr s))
    with (negb (value_eqb (VStr s) (VStr "")) && true).
  apply andb_true_r.
Qed.

Lemma kept_records (coll : collection) (country_name : string) :
  List.filter (fun w => eval_operators variety_condition (variety w))
    (List.filter (fun w => value_eqb (country w) (VStr country_name)) coll)
  = counted_records coll country_name.
Proof.
  unfold counted_records.
  induction coll as [|w ws IH]; [reflexivity|].
  cbn [List.filter].
  destruct (value_eqb (country w) (VStr country_name)); cbn [andb List.filter].
  - rewrite eval_variety_condition, IH. reflexivity.
  - exact IH.
Qed.

Lemma varietyCounts_unfold (coll : collection) (country_name : string) :
  varietyCounts coll country_name
  = firstn 1 (sort_desc (group_count (map variety (counted_records coll country_name)))).
Proof. unfold varietyCounts. rewrite kept_records. reflexivity. Qed.

Lemma group_lookup_add (k v : value) (gs : list (value * nat)) :
  group_lookup k (group_add v gs)
  = group_lookup k gs + (if value_eqb v k then 1 else 0).
Proof.
  induction gs as [|[g n] gs IH]; cbn [group_add group_lookup].
  - destruct (value_eqb v k); reflexivity.
  - destruct (value_eqb g v) eqn:Egv; cbn [group_lookup].
    + apply value_eqb_eq in Egv; subst g.
      destruct (value_eqb v k); lia.
    + destruct (value_eqb g k) eqn:Egk; [|exact IH].
      apply value_eqb_eq in Egk; subst g.
      rewrite value_eqb_sym, Egv. lia.
Qed.

Lemma group_count_lookup (k : value) (vs : list value) :
  forall gs : list (value * nat),
    group_lookup k (fold_left (fun gs v => group_add v gs) vs gs)
    = group_lookup k gs + count_value k vs.
Proof.
  unfold count_value.
  induction vs as [|v vs IH]; intros gs; cbn [fold_left List.filter].
  - simpl; lia.
  - rewrite IH, group_lookup_add.
    destruct (value_eqb v k); cbn [List.length]; lia.
Qed.

Lemma group_add_nodup (v : value) (gs : list (value * nat)) :
  NoDup (map fst gs) -> NoDup (map fst (group_add v gs)).
Proof.
  induction gs as [|[g n] gs IH]; cbn [group_add map fst]; intros H.
  - repeat constructor. intros [].
  - inversion H as [|x l Hnot Hrest]; subst.
    destruct (value_eqb g v) eqn:E; cbn [map fst].
    + constructor; assumption.
    + constructor; [|apply IH; assumption].
      intros Hin. apply in_map_iff in Hin. destruct Hin as ([k m] & Hk & Hin).
      cbn [fst] in Hk; subst k.
      destruct (group_add_keys _ _ _ _ Hin) as [-> | (m' & Hm')].
      * rewrite value_eqb_refl in E; discriminate.
      * apply Hnot. apply in_map_iff. exists (g, m'); auto.
Qed.

Lemma group_count_nodup (vs : list value) :
  forall gs : list (value * nat),
    NoDup (map fst gs) ->
    NoDup (map fst (fold_left (fun gs v => group_add v gs) vs gs)).
Proof.
  induction vs as [|v vs IH]; intros gs H; cbn [fold_left]; [exact H|].
  apply IH, group_add_nodup, H.
Qed.

Lemma group_lookup_in (k : value) (n : nat) (gs : list (value * nat)) :
  NoDup (map fst gs) -> In (k, n) gs -> group_lookup k gs = n.
Proof.
  induction gs as [|[g m] gs IH]; cbn [map fst group_lookup]; intros Hnd Hin;
    [destruct Hin|].
  inversion Hnd as [|x l Hnot Hrest]; subst.
  destruct Hin as [E | Hin].
  - injection E as -> ->. rewrite value_eqb_refl. reflexivity.
  - destruct (value_eqb g k) eqn:E; [|apply IH; assumption].
    apply value_eqb_eq in E; subst g.
    exfalso; apply Hnot. apply in_map_iff. exists (k, n); auto.
Qed.

Lemma group_lookup_found (k : value) (gs : list (value * nat)) :
  group_lookup k gs <> 0 -> In (k, group_lookup k gs) gs.
Proof.
  induction gs as [|[g m] gs IH]; cbn [group_lookup]; intros H; [congruence|].
  destruct (value_eqb g k) eqn:E.
  - apply value_eqb_eq in E; subst g. left; reflexivity.
  - right; apply IH, H.
Qed.

Lemma insert_desc_keeps (g x : value * nat) (gs : list (value * nat)) :
  x = g \/ In x gs -> In x (insert_desc g gs).
Proof.
  induction gs as [|h gs IH]; cbn [insert_desc]; [simpl; intuition|].
  destruct (snd h <? snd g); simpl; simpl in IH; intuition.
Qed.

Lemma sort_desc_keeps (x : value * nat) (gs : list (value * nat)) :
  In x gs -> In x (sort_desc gs).
Proof.
  induction gs as [|g gs IH]; cbn [sort_desc fold_right]; [auto|].
  intros [<- | H]; apply insert_desc_keeps; [left; reflexivity | right; apply IH, H].
Qed.

Lemma insert_desc_sorted (g : value * nat) (gs : list (value * nat)) :
  StronglySorted (fun x y => snd y <= snd x) gs ->
  StronglySorted (fun x y => snd y <= snd x) (insert_desc g gs).
Proof.
  induction 1 as [|h gs Hs IH Hh]; cbn [insert_desc].
  - repeat constructor.
  - destruct (Nat.ltb_spec (snd h) (snd g)) as [L|L].
    + constructor; [constructor; assumption|].
      constructor; [lia|].
      rewrite Forall_forall in *. intros y Hy. specialize (Hh y Hy). lia.
    + constructor; [exact IH|].
      rewrite Forall_forall in *. intros y Hy.
      destruct (insert_desc_in _ _ _ Hy) as [-> | Hy']; [lia | auto].
Qed.

Lemma sort_desc_sorted (gs : list (value * nat)) :
  StronglySorted (fun x y => snd y <= snd x) (sort_desc gs).
Proof.
  induction gs as [|g gs IH]; cbn [sort_desc fold_right]; [constructor|].
  apply insert_desc_sorted, IH.
Qed.

Lemma sort_desc_head_max (gs : list (value * nat)) (h : value * nat)
    (t : list (value * nat)) :
  sort_desc gs = h :: t -> forall x : value * nat, In x gs -> snd x <= snd h.
Proof.
  intros E x Hx. apply sort_desc_keeps in Hx.
  pose proof (sort_desc_sorted gs) as S. rewrite E in S, Hx.
  inversion S as [|a l Hl Hall]; subst.
  destruct Hx as [<- | Hx]; [lia|].
  rewrite Forall_forall in Hall. apply Hall, Hx.
Qed.

Lemma count_value_map (k : value) (recs : collection) :
  count_value k (map variety recs) = occurrences variety k recs.
Proof.
  unfold count_value, occurrences.
  induction recs as [|w ws IH]; [reflexivity|].
  cbn [map List.filter]. destruct (value_eqb (variety w) k); cbn [List.length]; lia.
Qed.

(** X8.  The group returned by the top-variety branch is the most frequent one:
    its count is the number of records of the country (varieties equal to
    the empty string left out) that carry the returned key, it is
    positive, and no key has more records; that key is [topVariety]. *)
Theorem top_variety_is_most_frequent :
  forall (coll : collection) (country_name : string) (v : value) (n : nat),
    varietyCounts coll country_name = [(v, n)] ->
    n = occurrences variety v (counted_records coll country_name) /\
    0 < n /\
    (forall v' : value,
        occurrences variety v' (counted_records coll country_name) <= n) /\
    (country_name <> "" ->
     get_country_stats_topVariety coll country_name = Some v).
Proof.
  intros coll name v n H.
  pose proof H as Hv. rewrite varietyCounts_unfold in Hv.
  set (vs := map variety (counted_records coll name)) in *.
  assert (Hnd : NoDup (map fst (group_count vs)))
    by (apply group_count_nodup; constructor).
  assert (Hlook : forall k, group_lookup k (group_count vs) = count_value k vs).
  { intros k. unfold group_count. rewrite group_count_lookup. reflexivity. }
  destruct (sort_desc (group_count vs)) as [|h t] eqn:S; [discriminate Hv|].
  cbn [firstn] in Hv. injection Hv as ->.
  assert (Hin : In (v, n) (group_count vs)).
  { apply sort_desc_in. rewrite S. left; reflexivity. }
  assert (Hn : n = count_value v vs).
  { rewrite <- Hlook. symmetry. apply group_lookup_in; assumption. }
  unfold vs in Hn. rewrite count_value_map in Hn.
  assert (Hpos : 0 < n).
  { apply group_count_keys in Hin. destruct Hin as [Hin | (m & [])].
    rewrite Hn, <- count_value_map. fold vs. unfold count_value.
    assert (Hf : In v (List.filter (fun x => value_eqb x v) vs)).
    { apply filter_In. split; [exact Hin | apply value_eqb_refl]. }
    destruct (List.filter _ vs); [destruct Hf | simpl; lia]. }
  repeat split; try assumption.
  - intros v'. rewrite <- count_value_map. fold vs. rewrite <- Hlook.
    destruct (Nat.eq_dec (group_lookup v' (group_count vs)) 0) as [E|NE]; [lia|].
    apply group_lookup_found in NE.
    apply (sort_desc_head_max _ _ _ S) in NE. exact NE.
  - intros Hname. unfold get_country_stats_topVariety.
    apply PyFacts.truthy_iff in Hname. rewrite Hname, H. reflexivity.
Qed.

Lemma top_variety_is_most_frequent_witness :
  let w := fun v : value =>
             mkWine "000000000000000000000001" VNull VNull VNull v (VStr "Chile") VNull [] in
  let coll := [w (VStr "Syrah"); w (VStr "Merlot"); w (VStr ""); w (VStr "Merlot")] in
  occurrences variety (VStr "Merlot") (counted_records coll "Chile") = 2 /\
  get_country_stats_topVariety coll "Chile" = Some (VStr "Merlot").
Proof.
  intros w coll.
  destruct (top_variety_is_most_frequent coll "Chile" (VStr "Merlot") 2)
    as (H1 & _ & _ & H4).
  - vm_compute; reflexivity.
  - split; [symmetry; exact H1 | apply H4; discriminate].
Defined.

(** X9.  Where [topVariety] comes from: there are no statistics for an empty
    country name; a string returned as [topVariety] is not empty and is the
    variety of a record of that country; and when no record of the country
    has a variety other than the empty string, [topVariety] is [null]. *)
Theorem top_variety_provenance :
  forall (coll : collection) (country_name : string),
    (country_name = "" -> get_country_stats_topVariety coll country_name = None) /\
    (forall s : string,
        get_country_stats_topVariety coll country_name = Some (VStr s) ->
        country_name <> "" /\ s <> "" /\
        exists w : wine,
          In w coll /\ country w = VStr country_name /\ variety w = VStr s) /\
    (country_name <> "" ->
     counted_records coll country_name = [] ->
     get_country_stats_topVariety coll country_name = Some VNull).
Proof.
  intros coll name. split; [|split].
  - intros ->; reflexivity.
  - intros s H. unfold get_country_stats_topVariety in H.
    destruct (Py.truthy name) eqn:T; [|discriminate]. cbn [negb] in H.
    split; [apply PyFacts.truthy_iff; exact T|].
    destruct (varietyCounts coll name) as [|[v n] t] eqn:V; [discriminate|].
    injection H as ->.
    assert (Hin : In (VStr s, n) (varietyCounts coll name))
      by (rewrite V; left; reflexivity).
    rewrite varietyCounts_unfold in Hin.
    apply firstn_incl, sort_desc_in, group_count_keys in Hin.
    destruct Hin as [Hin | (m & [])].
    apply in_map_iff in Hin. destruct Hin as (w & Hw & Hin).
    apply filter_In in Hin. destruct Hin as [Hin Hc].
    apply andb_prop in Hc. destruct Hc as [Hc Hne].
    apply value_eqb_eq in Hc. rewrite Hw in Hne.
    split; [|exists w; auto].
    intros ->. discriminate Hne.
  - intros Hname Hnone. unfold get_country_stats_topVariety.
    apply PyFacts.truthy_iff in Hname.
    rewrite Hname, varietyCounts_unfold, Hnone. reflexivity.
Qed.

Lemma top_variety_provenance_witness :
  get_country_stats_topVariety [] "" = None /\
  get_country_stats_topVariety
    [mkWine "000000000000000000000001" VNull VNull VNull (VStr "") (VStr "Peru") VNull []]
    "Peru" = Some VNull.
Proof.
  split.
  - apply (proj1 (top_variety_provenance [] "")). reflexivity.
  - apply (proj2 (proj2 (top_variety_provenance
                           [mkWine "000000000000000000000001" VNull VNull VNull
                              (VStr "") (VStr "Peru") VNull []] "Peru"))).
    + discriminate.
    + reflexivity.
Defined.

(* ================================================================== *)
(** * Further properties of the detail, comment and asset handlers *)
(* ================================================================== *)

Lemma find_one_first (pre post : list wine) (w : wine) (_id : oid) :
  (forall w' : wine, In w' pre -> wine_id w' <> _id) ->
  wine_id w = _id ->
  find_one (pre ++ w :: post) _id = Some w.
Proof.
  unfold find_one. intros Hpre Hw.
  induction pre as [|x pre IH]; cbn [app find].
  - apply String.eqb_eq in Hw. rewrite Hw. reflexivity.
  - assert (E : (wine_id x =? _id)%string = false)
      by (apply String.eqb_neq, Hpre; left; reflexivity).
    rewrite E. apply IH. intros w' Hw'. apply Hpre. right; exact Hw'.
Qed.

Lemma hex_not_space (c : ascii) : is_hex c = true -> Py.is_ascii_space c = false.
Proof.
  unfold is_hex, Py.is_ascii_space. intros H.
  destruct (nat_of_ascii c) as [|n]; [discriminate H|].
  repeat rewrite orb_true_iff in H. repeat rewrite andb_true_iff in H.
  repeat rewrite Nat.leb_le in H.
  apply orb_false_iff; split; [apply andb_false_iff|apply Nat.eqb_neq];
    rewrite ?Nat.leb_gt; lia.
Qed.

Lemma fromhex_hex (n : nat) :
  forall s : string,
    String.length s = 2 * n -> all_hex s = true -> fromhex s = Some (Py.lower_str s).
Proof.
  induction n as [|n IH]; intros s Hlen Hhex.
  - destruct s; [reflexivity | discriminate Hlen].
  - destruct s as [|c [|d s]]; cbn [String.length] in Hlen; try lia.
    cbn [all_hex] in Hhex.
    apply andb_prop in Hhex. destruct Hhex as [Hc Hhex].
    apply andb_prop in Hhex. destruct Hhex as [Hd Hhex].
    cbn [fromhex Py.lower_str].
    rewrite (hex_not_space c Hc), Hc, Hd. cbn [andb].
    rewrite (IH s) by (lia || exact Hhex). reflexivity.
Qed.

(** An identifier of 24 hexadecimal digits parses, to its lower case. *)
Lemma ObjectId_hex (id : string) :
  String.length id = 24 -> all_hex id = true -> ObjectId id = Some (Py.lower_str id).
Proof.
  intros Hlen Hhex. unfold ObjectId. rewrite Hlen. cbn [Nat.eqb].
  apply (fromhex_hex 12); [exact Hlen | exact Hhex].
Qed.

Lemma ObjectId_length (id : string) :
  String.length id <> 24 -> ObjectId id = None.
Proof.
  intros H. unfold ObjectId. apply Nat.eqb_neq in H. rewrite H. reflexivity.
Qed.

(** X10.  The detail page: a malformed identifier (one that [ObjectId]
    refuses, as every string that is not 24 characters long) is answered
    400, an identifier that parses and that no record carries (as 24
    hexadecimal digits do parse) 404, two distinct errors; and a page is
    rendered exactly for the identifiers of stored records, showing a
    record of the collection that carries the identifier. *)
Theorem wine_details_outcomes :
  forall (coll : collection) (id : string),
    (ObjectId id = None -> wine_details coll id = inl (Plain "Invalid ID" 400)) /\
    (forall _id : oid,
        ObjectId id = Some _id ->
        (forall w : wine, In w coll -> wine_id w <> _id) ->
        wine_details coll id = inl (Plain "Wine not found" 404)) /\
    (forall w : wine,
        wine_details coll id = inr w ->
        In w coll /\ ObjectId id = Some (wine_id w)) /\
    (forall (_id : oid) (w : wine),
        ObjectId id = Some _id -> In w coll -> wine_id w = _id ->
        exists w' : wine, wine_details coll id = inr w' /\ wine_id w' = _id) /\
    (String.length id <> 24 ->
     wine_details coll id = inl (Plain "Invalid ID" 400)) /\
    (String.length id = 24 -> all_hex id = true ->
     (forall w : wine, In w coll -> wine_id w <> Py.lower_str id) ->
     wine_details coll id = inl (Plain "Wine not found" 404)).
Proof.
  intros coll id.
  assert (H400 : ObjectId id = None ->
                 wine_details coll id = inl (Plain "Invalid ID" 400)).
  { unfold wine_details. intros ->; reflexivity. }
  assert (H404 : forall _id : oid,
             ObjectId id = Some _id ->
             (forall w : wine, In w coll -> wine_id w <> _id) ->
             wine_details coll id = inl (Plain "Wine not found" 404)).
  { unfold wine_details, find_one. intros _id -> Hnone.
    destruct (find _ coll) as [w|] eqn:F; [|reflexivity].
    apply find_some in F. destruct F as [Hin E].
    apply String.eqb_eq in E. exfalso; exact (Hnone w Hin E). }
  split; [exact H400|]. split; [exact H404|].
  split; [|split; [|split]].
  - intros w H. unfold wine_details, find_one in H.
    destruct (ObjectId id) as [_id|]; [|discriminate].
    destruct (find _ coll) as [w'|] eqn:F; [|discriminate].
    injection H as <-. apply find_some in F. destruct F as [Hin E].
    apply String.eqb_eq in E. rewrite E. split; [exact Hin | reflexivity].
  - intros _id w Hid Hin Hw. unfold wine_details, find_one. rewrite Hid.
    destruct (find _ coll) as [w'|] eqn:F.
    + exists w'. split; [reflexivity|].
      apply find_some in F. destruct F as [_ E]. apply String.eqb_eq; exact E.
    + exfalso. apply (find_none _ _ F) in Hin.
      apply String.eqb_neq in Hin. exact (Hin Hw).
  - intros Hlen. apply H400, ObjectId_length, Hlen.
  - intros Hlen Hhex Hnone.
    apply (H404 (Py.lower_str id)); [apply ObjectId_hex; assumption | exact Hnone].
Qed.

Lemma wine_details_outcomes_witness :
  wine_details [] "0123456789abcdef01234567" = inl (Plain "Wine not found" 404) /\
  wine_details [] "12345" = inl (Plain "Invalid ID" 400) /\
  wine_details [] "00 00 00 00 00 00 00 00 " = inl (Plain "Wine not found" 404) /\
  wine_details [] "0123456789abcdef0123456z" = inl (Plain "Invalid ID" 400).
Proof.
  split; [|split; [|split]].
  - apply (proj1 (proj2 (wine_details_outcomes [] "0123456789abcdef01234567")))
      with (_id := "0123456789abcdef01234567").
    + reflexivity.
    + intros w [].
  - apply (proj1 (wine_details_outcomes [] "12345")). reflexivity.
  - apply (proj1 (proj2 (wine_details_outcomes [] "00 00 00 00 00 00 00 00 ")))
      with (_id := "0000000000000000").
    + reflexivity.
    + intros w [].
  - apply (proj1 (wine_details_outcomes [] "0123456789abcdef0123456z")). reflexivity.
Defined.

(** What a successful append did: the shape of the collection before and
    after, and the comment that was pushed. *)
Lemma add_comment_redirect_inv (db : database) (new_id : oid) (now : Z)
    (id : string) (form : params) (location : string) (db' : database) :
  add_comment db new_id now id form = (Redirect location, db') ->
  exists (_id : oid) (pre : list wine) (w : wine) (post : list wine) (c : comment),
    location = url_for_wine_details id /\
    ObjectId id = Some _id /\
    db_fault db = None /\
    db_wines db = pre ++ w :: post /\
    wine_id w = _id /\
    (forall w' : wine, In w' pre -> wine_id w' <> _id) /\
    db' = mkDb (pre ++ push_comment c w :: post) None /\
    comment_id c = new_id /\
    comment_createdAt c = now /\
    comment_text c <> "".
Proof.
  intros H. unfold add_comment in H.
  destruct (Py.truthy (Py.take 2000 (Py.strip (Py.or_else (get "text" form) ""))))
    eqn:T; [|discriminate].
  cbn [negb] in H.
  destruct (ObjectId id) as [_id|]; [|discriminate].
  destruct (db_fault db) eqn:Fault; [discriminate|].
  match type of H with
  | (let '(_, _) := update_one _ _ ?c in _) = _ => set (cm := c) in H
  end.
  destruct (update_one (db_wines db) _id cm) as [coll' n] eqn:U.
  destruct (Nat.eqb_spec n 0) as [|Hn]; [discriminate|].
  injection H as <- <-.
  destruct (update_one_matched _ _ _ _ _ U Hn) as (pre & w & post & Hc & Hw & Hpre & ->).
  exists _id, pre, w, post, cm. repeat split; auto.
  apply PyFacts.truthy_iff. exact T.
Qed.

Lemma url_quote_hex (s : string) : all_hex s = true -> url_quote s = s.
Proof.
  induction s as [|c s IH]; [reflexivity|].
  cbn [all_hex url_quote]. intros H. apply andb_prop in H. destruct H as [Hc Hs].
  assert (Hsafe : url_safe c = true).
  { unfold url_safe. apply orb_true_iff; left.
    unfold is_hex in Hc. unfold Re.is_alnum.
    destruct (nat_of_ascii c) as [|n] eqn:E; [discriminate Hc|].
    repeat rewrite orb_true_iff in *. repeat rewrite andb_true_iff in *.
    repeat rewrite Nat.leb_le in *. lia. }
  rewrite Hsafe, (IH Hs). reflexivity.
Qed.

(** X11.  The redirect after a successful append leads to the updated record:
    the location is the detail page of the submitted identifier (the
    identifier percent-encoded, which leaves an identifier of hexadecimal
    digits as it is), and the detail page, which showed a record [w]
    before, shows afterwards [w] with exactly one more comment at the end
    of its comments, carrying the fresh identifier, the time of the request
    and a non-empty text. *)
Theorem comment_shows_on_detail_page :
  forall (db : database) (new_id : oid) (now : Z) (id : string) (form : params)
         (location : string) (db' : database),
    add_comment db new_id now id form = (Redirect location, db') ->
    location = ("/wine/" ++ url_quote id)%string /\
    (all_hex id = true -> location = ("/wine/" ++ id)%string) /\
    exists (w : wine) (c : comment),
      wine_details (db_wines db) id = inr w /\
      wine_details (db_wines db') id = inr (push_comment c w) /\
      comments (push_comment c w) = comments w ++ [c] /\
      comment_id c = new_id /\
      comment_createdAt c = now /\
      comment_text c <> "".
Proof.
  intros db new_id now id form location db' H.
  destruct (add_comment_redirect_inv _ _ _ _ _ _ _ H)
    as (_id & pre & w & post & c & Hl & Hid & _ & Hc & Hw & Hpre & -> & H1 & H2 & H3).
  split; [exact Hl|].
  split; [intros Hhex; rewrite Hl; unfold url_for_wine_details;
          rewrite (url_quote_hex id Hhex); reflexivity|].
  exists w, c. unfold wine_details. rewrite Hid, Hc. cbn [db_wines].
  rewrite (find_one_first pre post w _id Hpre Hw).
  rewrite (find_one_first pre post (push_comment c w) _id Hpre Hw).
  repeat split; auto.
Qed.

Lemma comment_shows_on_detail_page_witness :
  let w := mkWine "0123456789abcdef01234567" (VStr "Barolo") VNull VNull VNull VNull VNull [] in
  let c := mkComment "00000000000000000000000a" "fine" "anonymous" 7 in
  exists c0 : comment,
    wine_details [push_comment c w] "0123456789ABCDEF01234567" = inr (push_comment c0 w) /\
    comment_id c0 = "00000000000000000000000a" /\ comment_createdAt c0 = 7%Z.
Proof.
  intros w c.
  destruct (comment_shows_on_detail_page (mkDb [w] None) "00000000000000000000000a" 7
              "0123456789ABCDEF01234567" [("text", " fine ")]
              "/wine/0123456789ABCDEF01234567" (mkDb [push_comment c w] None) eq_refl)
    as (_ & _ & w0 & c0 & H0 & H1 & _ & H3 & H4 & _).
  injection H0 as <-. exists c0. cbn [db_wines] in H1.
  split; [exact H1 | split; assumption].
Defined.

Lemma extends_comments_refl (w : wine) : extends_comments w w.
Proof.
  unfold extends_comments. repeat split. exists []. now rewrite app_nil_r.
Qed.

Lemma update_one_extends (coll : collection) (_id : oid) (c : comment) :
  forall (coll' : collection) (n : nat),
    update_one coll _id c = (coll', n) ->
    Forall2 extends_comments coll coll'.
Proof.
  induction coll as [|w ws IH]; intros coll' n H; cbn [update_one] in H.
  - injection H as <- _. constructor.
  - destruct (wine_id w =? _id)%string.
    + injection H as <- _. constructor.
      * unfold extends_comments, push_comment; cbn. repeat split. exists [c]; reflexivity.
      * clear. induction ws; constructor; auto using extends_comments_refl.
    + destruct (update_one ws _id c) as [ws' m] eqn:U.
      injection H as <- _. constructor; [apply extends_comments_refl|].
      eapply IH; reflexivity.
Qed.

Lemma update_one_zero (coll : collection) (_id : oid) (c : comment) :
  forall coll' : collection, update_one coll _id c = (coll', 0) -> coll' = coll.
Proof.
  induction coll as [|w ws IH]; intros coll' U; cbn [update_one] in U.
  - injection U as <-; reflexivity.
  - destruct (wine_id w =? _id)%string; [discriminate|].
    destruct (update_one ws _id c) as [ws' m] eqn:U'.
    injection U as <- ->. f_equal. apply IH; reflexivity.
Qed.

(** X12.  Comments are only ever appended.  Whatever the request, the records
    after the handler are the records before it, in the same order, with
    the same identifier and attributes, the comments each one had still
    there in the same order at the head of its comments; and unless the
    handler redirects, the database is exactly what it was. *)
Theorem comments_are_append_only :
  forall (db : database) (new_id : oid) (now : Z) (id : string) (form : params)
         (r : response) (db' : database),
    add_comment db new_id now id form = (r, db') ->
    Forall2 extends_comments (db_wines db) (db_wines db') /\
    List.length (db_wines db') = List.length (db_wines db) /\
    ((forall location : string, r <> Redirect location) -> db' = db) /\
    (status r = 302 \/ status r = 400 \/ status r = 404 \/ status r = 500).
Proof.
  intros db new_id now id form r db' H.
  assert (Hrefl : Forall2 extends_comments (db_wines db) (db_wines db)).
  { induction (db_wines db); constructor; auto using extends_comments_refl. }
  assert (Main : Forall2 extends_comments (db_wines db) (db_wines db') /\
                 ((forall location : string, r <> Redirect location) -> db' = db) /\
                 (status r = 302 \/ status r = 400 \/ status r = 404 \/ status r = 500)).
  { unfold add_comment in H.
    match type of H with
    | context [negb ?t] => destruct (negb t)
    end; [injection H as <- <-; solve [cbn; auto 10]|].
    destruct (ObjectId id) as [_id|]; [|injection H as <- <-; solve [cbn; auto 10]].
    destruct (db_fault db) eqn:Fault; [injection H as <- <-; solve [cbn; auto 10]|].
    match type of H with
    | (let '(_, _) := update_one _ _ ?c in _) = _ => set (cm := c) in H
    end.
    destruct (update_one (db_wines db) _id cm) as [coll' n] eqn:U.
    pose proof (update_one_extends _ _ _ _ _ U) as Hext.
    destruct (Nat.eqb_spec n 0) as [->|Hn]; injection H as <- <-; cbn [db_wines status].
    - split; [exact Hext|]. split; [|auto 10].
      intros _.
      pose proof (update_one_zero _ _ _ _ U) as E.
      rewrite E. destruct db as [ws fault]; cbn in *; subst; reflexivity.
    - split; [exact Hext|]. split; [|auto 10].
      intros Hno. exfalso. exact (Hno _ eq_refl). }
  destruct Main as (H1 & H2 & H3).
  repeat split; auto.
  symmetry. eapply Forall2_length; exact H1.
Qed.

Lemma comments_are_append_only_witness :
  let db := mkDb [mkWine "0123456789abcdef01234567" (VStr "Barolo") VNull VNull VNull
                    VNull VNull []] (Some "timeout") in
  snd (add_comment db "00000000000000000000000a" 0 "0123456789abcdef01234567"
         [("text", "fine")]) = db.
Proof.
  intros db.
  refine (proj1 (proj2 (proj2
            (comments_are_append_only db "00000000000000000000000a" 0
               "0123456789abcdef01234567" [("text", "fine")]
               (Plain "Error adding comment: timeout" 500) _ _))) _).
  - reflexivity.
  - intros location; discriminate.
Defined.

(** X13.  The errors of the append, in the order the handler checks: with a
    non-empty text, a malformed identifier (one that [ObjectId] refuses, as
    every string that is not 24 characters long) is answered 400; with an
    identifier that parses, a failing write is answered 500 with the
    message of the failure.  Neither touches the database. *)
Theorem add_comment_error_paths :
  forall (db : database) (new_id : oid) (now : Z) (id : string) (form : params),
    Py.strip (Py.or_else (get "text" form) "") <> "" ->
    (ObjectId id = None ->
     add_comment db new_id now id form = (Plain "Invalid ID" 400, db)) /\
    (forall (_id : oid) (e : string),
        ObjectId id = Some _id ->
        db_fault db = Some e ->
        add_comment db new_id now id form
        = (Plain ("Error adding comment: " ++ e) 500, db)) /\
    (String.length id <> 24 ->
     add_comment db new_id now id form = (Plain "Invalid ID" 400, db)) /\
    (forall e : string,
        String.length id = 24 -> all_hex id = true ->
        db_fault db = Some e ->
        add_comment db new_id now id form
        = (Plain ("Error adding comment: " ++ e) 500, db)).
Proof.
  intros db new_id now id form Ht.
  assert (T : Py.truthy (Py.take 2000 (Py.strip (Py.or_else (get "text" form) ""))) = true)
    by (apply PyFacts.truthy_iff, PyFacts.take_nonempty, Ht).
  assert (H400 : ObjectId id = None ->
                 add_comment db new_id now id form = (Plain "Invalid ID" 400, db)).
  { intros Hid. unfold add_comment. rewrite T, Hid. reflexivity. }
  assert (H500 : forall (_id : oid) (e : string),
             ObjectId id = Some _id ->
             db_fault db = Some e ->
             add_comment db new_id now id form
             = (Plain ("Error adding comment: " ++ e) 500, db)).
  { intros _id e Hid Hf. unfold add_comment. rewrite T, Hid, Hf. reflexivity. }
  split; [exact H400|]. split; [exact H500|]. split.
  - intros Hlen. apply H400, ObjectId_length, Hlen.
  - intros e Hlen Hhex Hf.
    apply (H500 (Py.lower_str id)); [apply ObjectId_hex; assumption | exact Hf].
Qed.

Lemma add_comment_error_paths_witness :
  add_comment (mkDb [] None) "00000000000000000000000a" 0 "xyz" [("text", "fine")]
  = (Plain "Invalid ID" 400, mkDb [] None) /\
  add_comment (mkDb [] (Some "timeout")) "00000000000000000000000a" 0
    "00 00 00 00 00 00 00 00 " [("text", "fine")]
  = (Plain "Error adding comment: timeout" 500, mkDb [] (Some "timeout")).
Proof.
  split.
  - apply (proj1 (add_comment_error_paths (mkDb [] None) "00000000000000000000000a" 0
                    "xyz" [("text", "fine")] ltac:(vm_compute; discriminate))).
    reflexivity.
  - apply (proj1 (proj2 (add_comment_error_paths (mkDb [] (Some "timeout"))
                           "00000000000000000000000a" 0 "00 00 00 00 00 00 00 00 "
                           [("text", "fine")] ltac:(vm_compute; discriminate))))
      with (_id := "0000000000000000"); reflexivity.
Defined.

(** ** The served asset *)

Lemma has_dot_append (base ext : string) :
  has_dot (base ++ String "." ext) = true.
Proof.
  induction base as [|c base IH]; cbn [String.append has_dot].
  - reflexivity.
  - rewrite IH. apply orb_true_r.
Qed.

(** [rsplit('.', 1)[1]]: what follows the last dot. *)
Lemma after_last_dot_append (base ext : string) :
  has_dot ext = false ->
  after_last_dot (base ++ String "." ext) = ext.
Proof.
  intros H. induction base as [|c base IH]; cbn [String.append after_last_dot].
  - rewrite H. reflexivity.
  - rewrite has_dot_append. exact IH.
Qed.

Lemma mimetype_of_ext_media (ext : string) :
  match mimetype_of_ext (Py.lower_str ext) with
  | Some m => m
  | None => "application/octet-stream"
  end = media_type_of_extension ext.
Proof.
  unfold mimetype_of_ext, media_type_of_extension. cbv zeta.
  destruct (Py.lower_str ext =? "png")%string; [reflexivity|].
  destruct ((Py.lower_str ext =? "jpg")%string || (Py.lower_str ext =? "jpeg")%string);
    [reflexivity|].
  destruct (Py.lower_str ext =? "gif")%string; reflexivity.
Qed.

(** X14.  The media type of a served blob, for a well formed identifier of a
    stored file: a non-empty stored content type is used as it is; failing
    that, the extension after the last dot of the file name decides,
    whatever its letter case (png, jpg, jpeg and gif are images, anything
    else is generic binary), and a name without a dot is generic binary.
    The blob is served unchanged with the one-week cache header. *)
Theorem served_media_type :
  forall (fs_get : oid -> option grid_file) (static_default : option string)
         (id : string) (file_id : oid) (f : grid_file),
    ObjectId id = Some file_id ->
    fs_get file_id = Some f ->
    (forall ct : string,
        file_content_type f = Some ct -> ct <> "" ->
        get_image fs_get static_default id = Blob (file_data f) ct one_week_cache) /\
    (opt_truthy (file_content_type f) = false ->
     forall base ext : string,
       file_filename f = Some (base ++ String "." ext)%string ->
       has_dot ext = false ->
       get_image fs_get static_default id
       = Blob (file_data f) (media_type_of_extension ext) one_week_cache) /\
    (opt_truthy (file_content_type f) = false ->
     forall name : string,
       file_filename f = Some name ->
       has_dot name = false ->
       get_image fs_get static_default id
       = Blob (file_data f) "application/octet-stream" one_week_cache).
Proof.
  intros fs_get sd id file_id f Hid Hf.
  unfold get_image, get_image_try. rewrite Hid, Hf. split; [|split].
  - intros ct Hct Hne. rewrite Hct.
    apply PyFacts.truthy_iff in Hne. cbn [opt_truthy]. rewrite Hne.
    cbn [opt_truthy]. rewrite Hne. reflexivity.
  - intros Hno base ext Hname Hext.
    rewrite Hno, Hname, has_dot_append, (after_last_dot_append base ext Hext).
    rewrite <- mimetype_of_ext_media.
    destruct (mimetype_of_ext (Py.lower_str ext)) as [m|] eqn:M.
    + assert (Hm : Py.truthy m = true).
      { unfold mimetype_of_ext in M.
        repeat match type of M with
               | context [if ?b then _ else _] => destruct b
               end; try discriminate; injection M as <-; reflexivity. }
      cbn [opt_truthy]. rewrite Hm. reflexivity.
    + rewrite Hno. reflexivity.
  - intros Hno name Hname Hdot.
    rewrite Hno, Hname, Hdot, Hno. reflexivity.
Qed.

Lemma served_media_type_witness :
  get_image (fun _ => Some (mkFile (Some "flags/it.JPG") None "bytes")) None
    "0123456789abcdef01234567"
  = Blob "bytes" "image/jpeg" one_week_cache.
Proof.
  refine (proj1 (proj2
            (served_media_type (fun _ => Some (mkFile (Some "flags/it.JPG") None "bytes"))
               None "0123456789abcdef01234567" "0123456789abcdef01234567"
               (mkFile (Some "flags/it.JPG") None "bytes") _ _)) _ "flags/it" "JPG" _ _);
    reflexivity.
Defined.

(** X15.  A stored blob that has neither a content type nor a file name is not
    served: testing the absent name for a dot raises, the handler's
    [except] clause takes over, and the answer is the default asset (or
    404 when that is missing), as for an unknown identifier. *)
Theorem blob_without_metadata_is_not_served :
  forall (fs_get : oid -> option grid_file) (static_default : option string)
         (id : string) (file_id : oid) (f : grid_file),
    ObjectId id = Some file_id ->
    fs_get file_id = Some f ->
    opt_truthy (file_content_type f) = false ->
    file_filename f = None ->
    get_image fs_get static_default id =
      match static_default with
      | Some data => StaticFile "default.png" data
      | None => Plain "Image not found" 404
      end.
Proof.
  intros fs_get sd id file_id f Hid Hf Hct Hname.
  unfold get_image, get_image_try. rewrite Hid, Hf, Hct, Hname. reflexivity.
Qed.

Lemma blob_without_metadata_is_not_served_witness :
  get_image (fun _ => Some (mkFile None (Some "") "bytes")) (Some "PNG")
    "0123456789abcdef01234567"
  = StaticFile "default.png" "PNG".
Proof.
  apply (blob_without_metadata_is_not_served
           (fun _ => Some (mkFile None (Some "") "bytes")) (Some "PNG")
           "0123456789abcdef01234567" "0123456789abcdef01234567"
           (mkFile None (Some "") "bytes")); reflexivity.
Defined.

(** X16.  What the asset handler answers.  With a default asset in place the
    status is always 200.  A blob response carries the bytes of the stored
    file of the parsed identifier, the one-week cache header and a media
    type that is never empty; a static-file response is the default asset;
    and the only plain response is the 404 of a missing default. *)
Theorem asset_responses :
  forall (fs_get : oid -> option grid_file) (static_default : option string)
         (id : string),
    (static_default <> None -> status (get_image fs_get static_default id) = 200) /\
    (forall (data mimetype : string) (headers : list (string * string)),
        get_image fs_get static_default id = Blob data mimetype headers ->
        headers = one_week_cache /\ mimetype <> "" /\
        exists (file_id : oid) (f : grid_file),
          ObjectId id = Some file_id /\ fs_get file_id = Some f /\
          data = file_data f) /\
    (forall name data : string,
        get_image fs_get static_default id = StaticFile name data ->
        name = "default.png" /\ static_default = Some data) /\
    (forall (body : string) (st : nat),
        get_image fs_get static_default id = Plain body st ->
        st = 404 /\ static_default = None).
Proof.
  intros fs_get sd id.
  assert (Try : forall r, get_image_try fs_get id = Some r ->
                exists (file_id : oid) (f : grid_file) (m : string),
                  ObjectId id = Some file_id /\ fs_get file_id = Some f /\
                  m <> "" /\ r = Blob (file_data f) m one_week_cache).
  { intros r H. unfold get_image_try in H.
    destruct (ObjectId id) as [file_id|] eqn:Hid; [|discriminate].
    destruct (fs_get file_id) as [f|] eqn:Hf; [|discriminate].
    match type of H with
    | match ?g with Some _ => _ | None => _ end = _ =>
        destruct g as [mt|]; [|discriminate]
    end.
    injection H as <-.
    exists file_id, f.
    destruct (opt_truthy mt) eqn:T.
    - destruct mt as [m|]; [|discriminate T].
      exists m. split; [reflexivity|]. split; [exact Hf|].
      split; [apply PyFacts.truthy_iff; exact T | reflexivity].
    - exists "application/octet-stream". split; [reflexivity|]. split; [exact Hf|].
      split; [discriminate | reflexivity]. }
  unfold get_image.
  destruct (get_image_try fs_get id) as [r|] eqn:T.
  - destruct (Try r eq_refl) as (file_id & f & m & Hid & Hf & Hm & ->).
    split; [intros _; reflexivity|].
    split; [|split; intros ? ? H; discriminate H].
    intros data mimetype headers H. injection H as <- <- <-.
    split; [reflexivity|]. split; [exact Hm|].
    exists file_id, f; auto.
  - destruct sd as [d|].
    + split; [intros _; reflexivity|].
      split; [intros ? ? ? H; discriminate H|].
      split; [|intros ? ? H; discriminate H].
      intros name data H. injection H as <- <-. split; reflexivity.
    + split; [intros H; congruence|].
      split; [intros ? ? ? H; discriminate H|].
      split; [intros ? ? H; discriminate H|].
      intros body st H. injection H as _ <-. split; reflexivity.
Qed.

Lemma asset_responses_witness :
  status (get_image (fun _ => None) (Some "PNG") "whatever") = 200.
Proof.
  apply (proj1 (asset_responses (fun _ => None) (Some "PNG") "whatever")).
  discriminate.
Defined.

(* ================================================================== *)
(** * Further properties: the shape of the query, the province lists,
      the per-request handles *)
(* ================================================================== *)

Lemma text_logic_shape (q field : string) (use_text : bool) (fs : list filter) :
  text_logic [] q field use_text = Some fs ->
  List.length fs <= 1 /\ forallb is_text_predicate fs = true.
Proof.
  unfold text_logic; intros H; split_branches H;
    try discriminate; injection H as <-; split; cbn; auto.
Qed.

(** X1.  The handler never raises while it builds the query, whatever the query
    text: it always reaches the database with a plan of limit 50.  The
    conjuncts of the query come in a fixed order: at most one text
    predicate, then the facet equalities (country before province), then
    at most one radius predicate; and the query is the match-all filter
    exactly when there is no conjunct. *)
Theorem search_builds_a_plan :
  forall (centroid_for : centroid_oracle) (a : params),
    exists (text facets geo : list filter) (center : option (Py.float * Py.float)),
      search_filters centroid_for a = Some (text ++ facets ++ geo, center) /\
      search centroid_for a
        = Some (mkPlan (match text ++ facets ++ geo with
                        | [] => match_all
                        | fs => FAnd fs
                        end) projection (sort_order (arg_sort_by a)) 50) /\
      List.length text <= 1 /\
      forallb is_text_predicate text = true /\
      facets = (if Py.truthy (arg_country a) then [FEq "country" (arg_country a)] else [])
               ++ (if Py.truthy (arg_province a) then [FEq "province" (arg_province a)] else []) /\
      geo = match center with
            | Some c => [centerSphere c (arg_max_m a)]
            | None => []
            end.
Proof.
  intros cf a.
  destruct (text_logic [] (arg_q a) (arg_field a) (arg_use_text a)) as [text|] eqn:T.
  2:{ destruct (SearchFacts.text_logic_total [] (arg_q a) (arg_field a) (arg_use_text a))
        as [fs Hfs]. congruence. }
  destruct (text_logic_shape _ _ _ _ T) as [Hlen Htext].
  set (facets := facet_logic [] (arg_country a) (arg_province a)).
  assert (Hb : filters_before_geo a = Some (text ++ facets)).
  { unfold filters_before_geo. rewrite T. cbn [option_map].
    rewrite SearchFacts.facet_logic_app. reflexivity. }
  pose proof (search_filters_geo cf a _ Hb) as Hs.
  pose proof (geo_logic_shape cf (text ++ facets) (arg_geo_mode a) (arg_max_m a)
                (arg_country a) (arg_province a) (arg_lat a) (arg_lon a)) as Hshape.
  destruct (geo_logic cf (text ++ facets) (arg_geo_mode a) (arg_max_m a)
              (arg_country a) (arg_province a) (arg_lat a) (arg_lon a))
    as [fs center] eqn:G.
  cbn [fst snd] in Hshape. rewrite <- app_assoc in Hshape. subst fs.
  exists text, facets, (match center with
                        | Some c => [centerSphere c (arg_max_m a)]
                        | None => []
                        end), center.
  split; [exact Hs|].
  split; [unfold search; rewrite Hs; destruct (text ++ facets ++ _); reflexivity|].
  split; [exact Hlen|]. split; [exact Htext|]. split; [|reflexivity].
  unfold facets, facet_logic.
  destruct (Py.truthy (arg_country a)), (Py.truthy (arg_province a)); reflexivity.
Qed.

(** X17.  The province list of the search page is the head of the unscoped list
    of [/provinces]: when no country is given, the first 250 provinces
    served by [/provinces] are the province list of [get_filter_lists]. *)
Theorem general_province_list_is_prefix :
  forall (coll : collection) (a : params),
    Py.strip (Py.or_else (get "country" a) "") = "" ->
    snd (get_filter_lists coll default_max_items)
    = firstn 250 (provinces_for_country coll a).
Proof.
  intros coll a H.
  unfold provinces_for_country, get_filter_lists, sorted_facet, default_max_items.
  rewrite H. cbn [Py.truthy snd].
  rewrite firstn_firstn. reflexivity.
Qed.

Lemma general_province_list_is_prefix_witness :
  snd (get_filter_lists [] default_max_items)
  = firstn 250 (provinces_for_country [] [("country", "  ")]).
Proof.
  apply (general_province_list_is_prefix [] [("country", "  ")]). reflexivity.
Defined.

(** ** The per-request handles *)

Import Context.

Lemma run_call_invariant (c : app_ctx) (k : helper_call) :
  ctx_invariant c ->
  fst (run_call c k) = 0 /\
  clients_made (snd (run_call c k)) = 1 /\
  ctx_invariant (snd (run_call c k)).
Proof.
  unfold ctx_invariant.
  destruct c as [db fs made opened]; cbn [g_db g_fs clients_made clients_open].
  intros [(-> & -> & -> & ->) | (-> & Hfs & -> & ->)].
  - destruct k; cbn; repeat split; right; repeat split; auto.
  - destruct Hfs as [-> | ->]; destruct k; cbn; repeat split; right; repeat split; auto.
Qed.

Lemma run_calls_invariant (ks : list helper_call) :
  forall (c : app_ctx) (hs : list nat) (c' : app_ctx),
    ctx_invariant c ->
    run_calls c ks = (hs, c') ->
    ctx_invariant c' /\ Forall (eq 0) hs /\ (ks <> [] -> clients_made c' = 1).
Proof.
  induction ks as [|k ks IH]; intros c hs c' Hc H; cbn [run_calls] in H.
  - injection H as <- <-. repeat split; [exact Hc | constructor | congruence].
  - destruct (run_call_invariant c k Hc) as (Hh & Hm & Hc1).
    destruct (run_call c k) as [h c1]. cbn [fst snd] in *.
    destruct (run_calls c1 ks) as [hs1 c2] eqn:R.
    injection H as <- <-.
    destruct (IH c1 hs1 c2 Hc1 R) as (Hc2 & Hhs & Hmade).
    repeat split; [exact Hc2 | constructor; auto |].
    intros _. destruct ks as [|k' ks'].
    + cbn [run_calls] in R. injection R as _ <-. exact Hm.
    + apply Hmade. discriminate.
Qed.

(** X18.  One client per request.  However many times, and in whatever order, a
    handler calls [get_db] and [get_fs] on a fresh context, at most one
    client is created (exactly one as soon as there is a call), every call
    returns the handle of that client, and after the teardown no client is
    left open and no database handle is cached. *)
Theorem one_client_per_request :
  forall (ks : list helper_call) (hs : list nat) (c : app_ctx),
    run_calls fresh ks = (hs, c) ->
    clients_made c <= 1 /\
    (ks <> [] -> clients_made c = 1) /\
    Forall (eq 0) hs /\
    clients_open (teardown_db c) = [] /\
    g_db (teardown_db c) = None.
Proof.
  intros ks hs c H.
  assert (Hfresh : ctx_invariant fresh) by (left; repeat split).
  destruct (run_calls_invariant ks fresh hs c Hfresh H) as (Hc & Hhs & Hmade).
  assert (Hle : clients_made c <= 1).
  { destruct Hc as [(_ & _ & -> & _) | (_ & _ & -> & _)]; lia. }
  repeat split; auto.
  - unfold teardown_db.
    destruct Hc as [(-> & _ & _ & ->) | (-> & _ & _ & ->)]; reflexivity.
  - unfold teardown_db.
    destruct Hc as [(E & _ & _ & _) | (E & _ & _ & _)]; rewrite E; [exact E | reflexivity].
Qed.

Lemma one_client_per_request_witness :
  clients_made (snd (run_calls fresh [CallGetFs; CallGetDb; CallGetFs])) = 1.
Proof.
  refine (proj1 (proj2
            (one_client_per_request [CallGetFs; CallGetDb; CallGetFs] [0; 0; 0]
               (mkCtx (Some 0) (Some 0) 1 [0]) _)) _).
  - reflexivity.
  - discriminate.
Defined.
